(** * The post page: [src/pages/post/[slug].tsx]

    A shallow embedding of the three exports of the page module:
    - the [Post] component (the renderer),
    - [getStaticPaths] (the path enumerator),
    - [getStaticProps] (the prop builder),
    together with the JavaScript primitives they use.

    External collaborators (the Prismic client, [date-fns], [object-hash],
    [prismic-dom], the router and the wall clock) are not part of the
    page module; they enter as fields of [Client] and [Env].

    Modelling notes.
    - Numbers are integers and rationals: the word counts are integers
      far below 2^53, where the sums are exact in double arithmetic and
      the quotient by 200 lies on the same side of every integer as its
      double.
    - Strings are byte strings; the byte 32 occurs in UTF-8 only as the
      space character, so splitting on it yields as many tokens as
      [split(' ')] does on the UTF-16 string.
    - A thrown exception or a rejected promise is a [Throw] completion;
      the requests sent to the content service are kept in a log.
    - Content blocks are taken as [interface Post] types them: a heading
      and a text are strings and a body is an array.  Service data that
      breaks the interface (a null heading, a fragment without text) is
      outside the model, so what is said of a render is said of a render
      that completes, or of a failure at a place reached before any
      content block is read. *)

From Stdlib Require Import String Ascii List ZArith QArith Qround Lia Bool.
From Stdlib Require Import DecimalString DecimalZ.
From Stdlib Require Import Permutation.
Import ListNotations.

Local Open Scope string_scope.
Local Open Scope Z_scope.

(* ================================================================== *)
(** * JavaScript primitives *)
(* ================================================================== *)

Module Js.

(** A value thrown by the page code or by a collaborator. *)
Inductive Error : Type :=
| TypeError (msg : string)
| RangeError (msg : string)
| ClientError (msg : string).

(** Completion of an evaluation: a value, or a thrown error. *)
Inductive Completion (A : Type) : Type :=
| Normal (a : A)
| Throw (e : Error).
Arguments Normal {A} a.
Arguments Throw {A} e.

Definition bindC {A B} (m : Completion A) (k : A -> Completion B) : Completion B :=
  match m with
  | Normal a => k a
  | Throw e => Throw e
  end.

(** A property that is [string | null | undefined]. *)
Inductive Nullable (A : Type) : Type :=
| Undefined
| Null
| Just (a : A).
Arguments Undefined {A}.
Arguments Null {A}.
Arguments Just {A} a.

(** [x ?? d] *)
Definition nullish {A} (x : Nullable A) (d : Nullable A) : Nullable A :=
  match x with
  | Just a => Just a
  | _ => d
  end.

(** [s.split(sep)] for a one-character separator, generalised to a
    predicate on characters so that the same scan serves any separator
    class.  The scan yields one token per separator occurrence plus one:
    the empty string yields a single, empty token, and two adjacent
    separators yield an empty token between them. *)
Fixpoint split_on (is_sep : ascii -> bool) (s : string) : list string :=
  match s with
  | EmptyString => [EmptyString]
  | String c rest =>
      if is_sep c then EmptyString :: split_on is_sep rest
      else match split_on is_sep rest with
           | [] => [String c EmptyString]
           | tok :: toks => String c tok :: toks
           end
  end.

(** [s.split(' ')] *)
Definition split (sep : ascii) (s : string) : list string :=
  split_on (Ascii.eqb sep) s.

(** [arr.length] *)
Definition length {A} (l : list A) : Z := Z.of_nat (List.length l).

(** [arr.reduce(f, init)] *)
Definition reduce {A B} (f : B -> A -> B) (init : B) (l : list A) : B :=
  fold_left f l init.

(** [Math.round]: the nearest integer, halves going up. *)
Definition Math_round (x : Q) : Z := Qfloor (x + (1 # 2)).

(** [Math.ceil] *)
Definition Math_ceil (x : Q) : Z := Qceiling x.

(** Template-literal interpolation of an optional string. *)
Definition interpolate (x : option string) : string :=
  match x with
  | Some s => s
  | None => "undefined"
  end.

End Js.

Import Js.

Notation "x <-! m ;; k" := (bindC m (fun x => k))
  (at level 61, m at next level, right associativity).

(* ================================================================== *)
(** * Data model *)
(* ================================================================== *)

(** One rich-text fragment of a body.  The page reads [text]; the other
    fields are consumed by the rich-text converter only. *)
Record BodyItem : Type := mkBodyItem {
  body_type : string;
  text : string;
  spans : list (Z * Z * string)
}.

Record ContentItem : Type := mkContentItem {
  heading : string;
  body : list BodyItem
}.

Record Banner : Type := mkBanner {
  url : string
}.

(** [interface Post], the [data] member. *)
Record PostData : Type := mkPostData {
  title : string;
  subtitle : option string;
  banner : option Banner;
  author : option string;
  content : option (list ContentItem)
}.

(** [interface Post] *)
Record Post : Type := mkPost {
  first_publication_date : Nullable string;
  last_publication_date : Nullable string;
  uid : option string;
  data : PostData
}.

(** [interface PostProps].  An absent or [null] neighbour is [None]. *)
Record PostProps : Type := mkPostProps {
  post : Post;
  previousPost : option Post;
  nextPost : option Post;
  preview : bool
}.

(* ================================================================== *)
(** * Reading time (lines 54-67) *)
(* ================================================================== *)

Definition wordsPerMinute : Z := 200.

(** The callback of the inner [reduce]. *)
Definition addBodyItem (acc2 : Z) (bodyItem : BodyItem) : Z :=
  acc2 + Js.length (split " " (text bodyItem)).

(** The callback of the outer [reduce]. *)
Definition addContentItem (acc : Z) (contentItem : ContentItem) : Z :=
  acc
  + Js.length (split " " (heading contentItem))
  + reduce addBodyItem 0 (body contentItem).

Definition totalWords (content : list ContentItem) : Z :=
  Math_round (inject_Z (reduce addContentItem 0 content)).

Definition totalMinutes (content : list ContentItem) : Z :=
  Math_ceil (inject_Z (totalWords content) / inject_Z wordsPerMinute).

(* ================================================================== *)
(** * The renderer: [export default function Post] (lines 44-152) *)
(* ================================================================== *)

Inductive Locale : Type := ptBR | enUS.

(** A [Date] object is its time value in milliseconds; [None] is the
    invalid date. *)
Definition JsDate : Type := option Z.

(** The object handed to [hash]: [{ ...contentItem, ts }]. *)
Record HashInput : Type := mkHashInput {
  hi_heading : string;
  hi_body : list BodyItem;
  ts : Z
}.

(** What the component takes from outside its arguments. *)
Record Env : Type := mkEnv {
  (** [useRouter().isFallback] *)
  isFallback : bool;
  (** parsing of a date string by [new Date(s)] *)
  Date_parse : string -> JsDate;
  (** [format] of date-fns *)
  format : JsDate -> string -> Locale -> Completion string;
  (** [hash] of object-hash *)
  hash : HashInput -> string;
  (** [RichText.asHtml] of prismic-dom *)
  asHtml : list BodyItem -> string;
  (** the value of the [n]-th evaluation of [new Date().getTime()]
      during the render *)
  clock : nat -> Z
}.

(** [new Date(v)] for [v : string | null | undefined]. *)
Definition new_Date (env : Env) (v : Nullable string) : JsDate :=
  match v with
  | Just s => Date_parse env s
  | Null => Some 0
  | Undefined => None
  end.

Inductive FlexDirection : Type := row | row_reverse.

Record NavLink : Type := mkNavLink {
  href : string;
  className : string;
  link_title : string;
  caption : string
}.

Record ContentView : Type := mkContentView {
  key : string;
  h2 : string;
  innerHTML : string
}.

Record PageView : Type := mkPageView {
  head_title : string;
  banner_src : string;
  h1 : string;
  date_label : string;
  author_label : option string;
  minutes_label : Z;
  infoUpdate : string;
  contents : list ContentView;
  flexDirection : FlexDirection;
  postAnterior : option NavLink;
  postPosterior : option NavLink
}.

Inductive Rendered : Type :=
| Carregando
| Page (view : PageView).

Module Renderer.

(** The spread [{ ...contentItem, ts: new Date().getTime() }]. *)
Definition keyed (contentItem : ContentItem) (now : Z) : HashInput :=
  {| hi_heading := heading contentItem;
     hi_body := body contentItem;
     ts := now |}.

(** [post.data.content.map(contentItem => <div key=...>...</div>)];
    [n] counts the clock readings taken so far. *)
Fixpoint mapContent (env : Env) (n : nat) (l : list ContentItem) : list ContentView :=
  match l with
  | [] => []
  | contentItem :: rest =>
      {| key := hash env (keyed contentItem (clock env n));
         h2 := heading contentItem;
         innerHTML := asHtml env (body contentItem) |}
      :: mapContent env (S n) rest
  end.

Definition linkTo (cls cap : string) (p : Post) : NavLink :=
  {| href := "/post/" ++ interpolate (uid p);
     className := cls;
     link_title := title (data p);
     caption := cap |}.

Definition Post (env : Env) (props : PostProps) : Completion Rendered :=
  if isFallback env then Normal Carregando
  else
    match content (data (post props)) with
    | None => Throw (TypeError "Cannot read property 'reduce' of undefined")
    | Some items =>
        let minutes := totalMinutes items in
        match banner (data (post props)) with
        | None => Throw (TypeError "Cannot read property 'url' of undefined")
        | Some b =>
            d1 <-! format env (new_Date env (first_publication_date (post props)))
                     "dd MMM yyyy" ptBR ;;
            d2 <-! format env (new_Date env (first_publication_date (post props)))
                     "'* editado em 'dd MMM yyyy', às 'HH:mm" ptBR ;;
            Normal (Page
              {| head_title := title (data (post props)) ++ " | Ignews";
                 banner_src := url b;
                 h1 := title (data (post props));
                 date_label := d1;
                 author_label := author (data (post props));
                 minutes_label := minutes;
                 infoUpdate := d2;
                 contents := mapContent env 0 items;
                 flexDirection :=
                   match previousPost props with
                   | Some _ => row
                   | None => row_reverse
                   end;
                 postAnterior :=
                   option_map (linkTo "postAnterior" "Post anterior")
                              (previousPost props);
                 postPosterior :=
                   option_map (linkTo "postPosterior" "Próximo post")
                              (nextPost props) |})
        end
    end.

End Renderer.

(* ================================================================== *)
(** * The content service, as the page sees it *)
(* ================================================================== *)

Module Prismic.

Record Image : Type := mkImage {
  url : string;
  alt : option string;
  dimensions : Z * Z
}.

(** The [data] member of a document of type "posts": the fields the page
    reads, and whatever else the custom type defines. *)
Record Data : Type := mkData {
  title : string;
  subtitle : option string;
  author : option string;
  banner : option Image;
  content : option (list ContentItem);
  other : list (string * string)
}.

Record Document : Type := mkDocument {
  id : string;
  uid : option string;
  type : string;
  href : string;
  tags : list string;
  slugs : list string;
  lang : option string;
  first_publication_date : option string;
  last_publication_date : option string;
  data : Data
}.

Record ApiSearchResponse : Type := mkApiSearchResponse {
  page : Z;
  total_results_size : Z;
  results : list Document
}.

(** [Prismic.predicates.at(path, value)] *)
Inductive Predicate : Type :=
| at_ (path value : string).

(** The options object of [query] and [getByUID]; an absent key is
    [None] (for [ref]: [Undefined]). *)
Record Options : Type := mkOptions {
  fetch : option (list string);
  after : option string;
  orderings : option string;
  pageSize : option Z;
  ref : Nullable string
}.

(** A request sent to the service. *)
Inductive Call : Type :=
| GetByUID (type uid : string) (options : Options)
| Query (q : list Predicate) (options : Options).

(** The client returned by [getPrismicClient()].  [getByUID] resolves to
    a document or to a falsy value ([None]); either call may reject. *)
Record Client : Type := mkClient {
  getByUID : string -> string -> Options -> Completion (option Document);
  query : list Predicate -> Options -> Completion ApiSearchResponse
}.

End Prismic.

(* ================================================================== *)
(** * Asynchronous functions: requests are logged, rejections propagate *)
(* ================================================================== *)

Definition Async (A : Type) : Type :=
  list Prismic.Call -> Completion A * list Prismic.Call.

Definition ret {A} (a : A) : Async A := fun log => (Normal a, log).

Definition throw {A} (e : Error) : Async A := fun log => (Throw e, log).

Definition bind {A B} (m : Async A) (k : A -> Async B) : Async B :=
  fun log =>
    match m log with
    | (Normal a, log') => k a log'
    | (Throw e, log') => (Throw e, log')
    end.

Notation "'await' x <- m ; k" := (bind m (fun x => k))
  (at level 61, x name, m at next level, right associativity).

(** [await prismic.getByUID(type, uid, options)] *)
Definition await_getByUID (prismic : Prismic.Client) (type uid : string)
    (options : Prismic.Options) : Async (option Prismic.Document) :=
  fun log => (Prismic.getByUID prismic type uid options,
              (log ++ [Prismic.GetByUID type uid options])%list).

(** [await prismic.query(q, options)] *)
Definition await_query (prismic : Prismic.Client) (q : list Prismic.Predicate)
    (options : Prismic.Options) : Async Prismic.ApiSearchResponse :=
  fun log => (Prismic.query prismic q options,
              (log ++ [Prismic.Query q options])%list).

(** Run an asynchronous function from an empty request log. *)
Definition run {A} (m : Async A) : Completion A * list Prismic.Call := m [].

(* ================================================================== *)
(** * The path enumerator: [getStaticPaths] (lines 154-170) *)
(* ================================================================== *)

Record RouteParams : Type := mkRouteParams {
  slug : option string
}.

Record StaticPath : Type := mkStaticPath {
  params : RouteParams
}.

Record StaticPaths : Type := mkStaticPaths {
  paths : list StaticPath;
  fallback : bool
}.

Definition postsPredicate : list Prismic.Predicate :=
  [Prismic.at_ "document.type" "posts"].

Definition pathsOptions : Prismic.Options :=
  {| Prismic.fetch := Some [];
     Prismic.after := None;
     Prismic.orderings := None;
     Prismic.pageSize := Some 100;
     Prismic.ref := Undefined |}.

Definition getStaticPaths (prismic : Prismic.Client) : Async StaticPaths :=
  await response <- await_query prismic postsPredicate pathsOptions ;
  ret {| paths := map (fun post => {| params := {| slug := Prismic.uid post |} |})
                      (Prismic.results response);
         fallback := true |}.

(* ================================================================== *)
(** * The prop builder: [getStaticProps] (lines 172-247) *)
(* ================================================================== *)

(** A value of the route's query object. *)
Inductive ParamValue : Type :=
| PString (s : string)
| PArray (l : list string)
| PUndefined.

(** [String(v)] *)
Definition String_ (v : ParamValue) : string :=
  match v with
  | PString s => s
  | PArray l => String.concat "," l
  | PUndefined => "undefined"
  end.

Record PreviewData : Type := mkPreviewData {
  pd_ref : Nullable string
}.

(** The argument of [getStaticProps]; an absent [preview] or
    [previewData] is [None] and takes the default of the signature. *)
Record Context : Type := mkContext {
  ctx_slug : ParamValue;
  ctx_preview : option bool;
  ctx_previewData : option PreviewData
}.

Inductive StaticPropsResult : Type :=
| Redirect (destination : string) (permanent : bool)
| Props (props : PostProps) (revalidate : Z).

(** [previewData?.ref ?? null], with the default [previewData = {}]. *)
Definition previewRef (ctx : Context) : Nullable string :=
  match ctx_previewData ctx with
  | Some pd => nullish (pd_ref pd) Null
  | None => Null
  end.

Definition byUIDOptions (ctx : Context) : Prismic.Options :=
  {| Prismic.fetch := None;
     Prismic.after := None;
     Prismic.orderings := None;
     Prismic.pageSize := None;
     Prismic.ref := previewRef ctx |}.

Definition neighborOptions (ctx : Context) (response : Prismic.Document)
    (ordering : string) : Prismic.Options :=
  {| Prismic.fetch := Some ["posts.title"];
     Prismic.after := Some (Prismic.id response);
     Prismic.orderings := Some ordering;
     Prismic.pageSize := Some 1;
     Prismic.ref := previewRef ctx |}.

(** [string | null] of the service as a property of [Post]. *)
Definition ofNull (x : option string) : Nullable string :=
  match x with
  | Some s => Just s
  | None => Null
  end.

(** [results.length ? { uid: results[0].uid, data: { title:
    results[0].data.title } } : null] *)
Definition neighbor (results : list Prismic.Document) : option Post :=
  match results with
  | [] => None
  | first :: _ =>
      Some {| first_publication_date := Undefined;
              last_publication_date := Undefined;
              uid := Prismic.uid first;
              data := {| title := Prismic.title (Prismic.data first);
                         subtitle := None;
                         banner := None;
                         author := None;
                         content := None |} |}
  end.

Definition getStaticProps (prismic : Prismic.Client) (ctx : Context)
    : Async StaticPropsResult :=
  let preview := match ctx_preview ctx with Some b => b | None => false end in
  await response <- await_getByUID prismic "posts" (String_ (ctx_slug ctx))
                                   (byUIDOptions ctx) ;
  match response with
  | None => ret (Redirect "/" false)
  | Some response =>
      await previousResponse <-
        await_query prismic postsPredicate
          (neighborOptions ctx response "[document.first_publication_date desc]") ;
      await nextResponse <-
        await_query prismic postsPredicate
          (neighborOptions ctx response "[document.first_publication_date]") ;
      match Prismic.banner (Prismic.data response) with
      | None => throw (TypeError "Cannot read property 'url' of undefined")
      | Some b =>
          ret (Props
            {| post :=
                 {| uid := Prismic.uid response;
                    first_publication_date :=
                      ofNull (Prismic.first_publication_date response);
                    last_publication_date :=
                      ofNull (Prismic.last_publication_date response);
                    data :=
                      {| author := Prismic.author (Prismic.data response);
                         title := Prismic.title (Prismic.data response);
                         subtitle := Prismic.subtitle (Prismic.data response);
                         content := Prismic.content (Prismic.data response);
                         banner := Some {| url := Prismic.url b |} |} |};
               previousPost := neighbor (Prismic.results previousResponse);
               nextPost := neighbor (Prismic.results nextResponse);
               preview := preview |}
            (60 * 5))
      end
  end.

(** [{ ...post, last_publication_date: v }] on the props' main post. *)
Definition with_last_publication_date (v : Nullable string) (props : PostProps)
    : PostProps :=
  {| post := {| first_publication_date := first_publication_date (post props);
                last_publication_date := v;
                uid := uid (post props);
                data := data (post props) |};
     previousPost := previousPost props;
     nextPost := nextPost props;
     preview := preview props |}.

(** The same environment with another wall clock. *)
Definition with_clock (c : nat -> Z) (env : Env) : Env :=
  {| isFallback := isFallback env;
     Date_parse := Date_parse env;
     format := format env;
     hash := hash env;
     asHtml := asHtml env;
     clock := c |}.

(** [new Date(post.first_publication_date)] *)
Definition publicationDate (env : Env) (props : PostProps) : JsDate :=
  new_Date env (first_publication_date (post props)).

(** The answers of the client to the three requests of a prop building. *)
Definition lookup (prismic : Prismic.Client) (ctx : Context)
    : Completion (option Prismic.Document) :=
  Prismic.getByUID prismic "posts" (String_ (ctx_slug ctx)) (byUIDOptions ctx).

Definition previousQuery (prismic : Prismic.Client) (ctx : Context)
    (d : Prismic.Document) : Completion Prismic.ApiSearchResponse :=
  Prismic.query prismic postsPredicate
    (neighborOptions ctx d "[document.first_publication_date desc]").

Definition nextQuery (prismic : Prismic.Client) (ctx : Context)
    (d : Prismic.Document) : Completion Prismic.ApiSearchResponse :=
  Prismic.query prismic postsPredicate
    (neighborOptions ctx d "[document.first_publication_date]").

(** The page a completed render returns, given the content, the banner
    and the two formatted dates. *)
Definition pageOf (env : Env) (props : PostProps)
    (items : list ContentItem) (b : Banner) (d1 d2 : string) : PageView :=
  {| head_title := title (data (post props)) ++ " | Ignews";
     banner_src := url b;
     h1 := title (data (post props));
     date_label := d1;
     author_label := author (data (post props));
     minutes_label := totalMinutes items;
     infoUpdate := d2;
     contents := Renderer.mapContent env 0 items;
     flexDirection :=
       match previousPost props with Some _ => row | None => row_reverse end;
     postAnterior :=
       option_map (Renderer.linkTo "postAnterior" "Post anterior")
                  (previousPost props);
     postPosterior :=
       option_map (Renderer.linkTo "postPosterior" "Próximo post")
                  (nextPost props) |}.

(** The bundle a completed prop building returns, given the found
    document, its banner and the answers to the two neighbour queries. *)
Definition propsOf (ctx : Context) (response : Prismic.Document)
    (b : Prismic.Image) (previousResponse nextResponse : Prismic.ApiSearchResponse)
    : PostProps :=
  {| post :=
       {| uid := Prismic.uid response;
          first_publication_date :=
            ofNull (Prismic.first_publication_date response);
          last_publication_date :=
            ofNull (Prismic.last_publication_date response);
          data :=
            {| author := Prismic.author (Prismic.data response);
               title := Prismic.title (Prismic.data response);
               subtitle := Prismic.subtitle (Prismic.data response);
               content := Prismic.content (Prismic.data response);
               banner := Some {| url := Prismic.url b |} |} |};
     previousPost := neighbor (Prismic.results previousResponse);
     nextPost := neighbor (Prismic.results nextResponse);
     preview := match ctx_preview ctx with Some v => v | None => false end |}.

(** The requests of one prop building that finds [response]. *)
Definition requestsOf (ctx : Context) (response : Prismic.Document)
    : list Prismic.Call :=
  [ Prismic.GetByUID "posts" (String_ (ctx_slug ctx)) (byUIDOptions ctx);
    Prismic.Query postsPredicate
      (neighborOptions ctx response "[document.first_publication_date desc]");
    Prismic.Query postsPredicate
      (neighborOptions ctx response "[document.first_publication_date]") ].

(* ================================================================== *)
(** * The specification's words for the word count *)
(* ================================================================== *)

Module Spec.

Definition sumZ (l : list Z) : Z := fold_right Z.add 0 l.

(** Tokens of a string split on the single space character. *)
Definition spaceTokens (s : string) : Z := Js.length (split " " s).

(** Words of a content: for every block, the tokens of its heading and
    of the [text] of every body fragment. *)
Definition wordsBy (tokens : string -> Z) (items : list ContentItem) : Z :=
  sumZ (map (fun item =>
               tokens (heading item)
               + sumZ (map (fun fragment => tokens (text fragment)) (body item)))
            items).

Definition spaceWords : list ContentItem -> Z := wordsBy spaceTokens.

(** Ceiling of [n / d] on integers, [d > 0]. *)
Definition ceilDiv (n d : Z) : Z := (n + d - 1) / d.

(** White space: tab, line feed, vertical tab, form feed, carriage
    return and space. *)
Definition isWhitespace (c : ascii) : bool :=
  let n := nat_of_ascii c in
  (Nat.leb 9 n && Nat.leb n 13) || Nat.eqb n 32.

(** Tokens of a string split at white space. *)
Definition whitespaceTokens (s : string) : Z :=
  Js.length (split_on isWhitespace s).

Definition whitespaceWords : list ContentItem -> Z := wordsBy whitespaceTokens.

(** The reading time over white-space-split tokens: the total rounded to
    the nearest integer, divided by 200, rounded up. *)
Definition whitespaceMinutes (items : list ContentItem) : Z :=
  Math_ceil (inject_Z (Math_round (inject_Z (whitespaceWords items)))
             / inject_Z 200).

(** The fields of a found document that the specification lists as
    copied into the props bundle. *)
Definition listedFields (d : Prismic.Document) :=
  (Prismic.uid d,
   Prismic.first_publication_date d,
   Prismic.last_publication_date d,
   Prismic.title (Prismic.data d),
   Prismic.subtitle (Prismic.data d),
   Prismic.author (Prismic.data d),
   Prismic.content (Prismic.data d),
   option_map Prismic.url (Prismic.banner (Prismic.data d))).

(** The fields of a neighbour that its reference carries. *)
Definition referenceFields (d : Prismic.Document) :=
  (Prismic.uid d, Prismic.title (Prismic.data d)).

End Spec.

(* ================================================================== *)
(** * Sample data used by the examples *)
(* ================================================================== *)

Module Sample.

Definition showZ (z : Z) : string := NilEmpty.string_of_int (Z.to_int z).

(** [n + 1] one-letter words, consecutive words separated by [sep]. *)
Fixpoint wordsSeparatedBy (sep : ascii) (n : nat) : string :=
  match n with
  | O => "a"
  | S k => String "a" (String sep (wordsSeparatedBy sep k))
  end.

Definition paragraph (s : string) : BodyItem :=
  {| body_type := "paragraph"; text := s; spans := [] |}.

(** A content of exactly 400 words: a 200-word heading and a 200-word
    paragraph. *)
Definition content400 : list ContentItem :=
  [ {| heading := wordsSeparatedBy " " 199;
       body := [paragraph (wordsSeparatedBy " " 199)] |} ].

(** A content of 401 words. *)
Definition content401 : list ContentItem :=
  content400 ++ [ {| heading := "fim"; body := [] |} ].

(** A one-word heading over a paragraph of 201 words, one per line
    (consecutive words separated by a line feed). *)
Definition contentLines : list ContentItem :=
  [ {| heading := "Resumo";
       body := [paragraph (wordsSeparatedBy (ascii_of_nat 10) 200)] |} ].

(** A block with a heading and an empty body. *)
Definition headingOnly : ContentItem :=
  {| heading := "titulo"; body := [] |}.

Definition env : Env :=
  {| isFallback := false;
     Date_parse := fun s =>
       if String.eqb s "2021-03-15T19:25:28+0000" then Some 1615836328000
       else if String.eqb s "2021-03-25T19:27:35+0000" then Some 1616700455000
       else None;
     format := fun d pattern _ =>
       match d with
       | Some t => Normal (pattern ++ "@" ++ showZ t)
       | None => Throw (RangeError "Invalid time value")
       end;
     hash := fun o => hi_heading o ++ "#" ++ showZ (ts o);
     asHtml := fun fragments =>
       String.concat EmptyString (map (fun f => "<p>" ++ text f ++ "</p>") fragments);
     clock := fun n => 1700000000000 + Z.of_nat n |}.

(** The same render one second later. *)
Definition envLater : Env :=
  with_clock (fun n => 1700000001000 + Z.of_nat n) env.

Definition postWith (items : list ContentItem) : Post :=
  {| first_publication_date := Just "2021-03-15T19:25:28+0000";
     last_publication_date := Just "2021-03-25T19:27:35+0000";
     uid := Some "como-utilizar-hooks";
     data := {| title := "Como utilizar Hooks";
                subtitle := Some "Pensando em sincronizacao";
                banner := Some {| url := "https://images.prismic.io/banner.png" |};
                author := Some "Joseph Oliveira";
                content := Some items |} |}.

Definition propsWith (items : list ContentItem) : PostProps :=
  {| post := postWith items;
     previousPost := None;
     nextPost := None;
     preview := false |}.

Definition document (i u : string) (date : string)
    (b : option Prismic.Image) (sub au : option string) : Prismic.Document :=
  {| Prismic.id := i;
     Prismic.uid := Some u;
     Prismic.type := "posts";
     Prismic.href := "https://repo.cdn.prismic.io/api/v2/documents/search";
     Prismic.tags := [];
     Prismic.slugs := [u];
     Prismic.lang := Some "pt-br";
     Prismic.first_publication_date := Some date;
     Prismic.last_publication_date := Some date;
     Prismic.data :=
       {| Prismic.title := "Post " ++ u;
          Prismic.subtitle := sub;
          Prismic.author := au;
          Prismic.banner := b;
          Prismic.content := Some [headingOnly];
          Prismic.other := [("seo", "x")] |} |}.

Definition image : Prismic.Image :=
  {| Prismic.url := "https://images.prismic.io/banner.png";
     Prismic.alt := None;
     Prismic.dimensions := (1440, 400) |}.

(** Three documents; the second has no banner, the third neither
    subtitle nor author. *)
Definition primeiro : Prismic.Document :=
  document "YA1" "primeiro" "2021-03-15T19:25:28+0000" (Some image)
           (Some "um") (Some "Ana").

Definition semBanner : Prismic.Document :=
  document "YA2" "sem-banner" "2021-03-20T10:00:00+0000" None
           (Some "dois") (Some "Bia").

Definition terceiro : Prismic.Document :=
  document "YA3" "terceiro" "2021-03-25T19:27:35+0000" (Some image)
           None None.

(** The documents of the sample service, oldest first. *)
Definition store : list Prismic.Document := [primeiro; semBanner; terceiro].

Definition hasUid (u : string) (d : Prismic.Document) : bool :=
  match Prismic.uid d with
  | Some x => String.eqb x u
  | None => false
  end.

Definition satisfies (d : Prismic.Document) (p : Prismic.Predicate) : bool :=
  match p with
  | Prismic.at_ path value =>
      if String.eqb path "document.type"
      then String.eqb (Prismic.type d) value else true
  end.

(** The documents that follow the one with identifier [i]. *)
Fixpoint afterId (i : string) (l : list Prismic.Document) : list Prismic.Document :=
  match l with
  | [] => []
  | d :: rest => if String.eqb (Prismic.id d) i then rest else afterId i rest
  end.

(** An in-memory content service over [docs], kept oldest first. *)
Definition memoryClient (docs : list Prismic.Document) : Prismic.Client :=
  {| Prismic.getByUID := fun ty u _ =>
       Normal (find (fun d => String.eqb (Prismic.type d) ty && hasUid u d) docs);
     Prismic.query := fun q options =>
       let matching := filter (fun d => forallb (satisfies d) q) docs in
       let ordered :=
         match Prismic.orderings options with
         | Some o => if String.eqb o "[document.first_publication_date desc]"
                     then rev matching else matching
         | None => matching
         end in
       let rest :=
         match Prismic.after options with
         | Some i => afterId i ordered
         | None => ordered
         end in
       let size :=
         match Prismic.pageSize options with
         | Some n => Z.to_nat n
         | None => 20%nat
         end in
       Normal {| Prismic.page := 1;
                 Prismic.total_results_size := Js.length rest;
                 Prismic.results := firstn size rest |} |}.

Definition prismic : Prismic.Client := memoryClient store.

Definition contextFor (u : string) : Context :=
  {| ctx_slug := PString u; ctx_preview := None; ctx_previewData := None |}.

End Sample.

(* ================================================================== *)
(** * Auxiliary notions for the further properties *)
(* ================================================================== *)

(** Occurrences of the character [c] in [s]. *)
Fixpoint countChar (c : ascii) (s : string) : nat :=
  match s with
  | EmptyString => O
  | String x rest =>
      if Ascii.eqb c x then S (countChar c rest) else countChar c rest
  end.

(** The strings the reading time looks at: for each block its heading,
    then the text of each body fragment. *)
Definition countedStrings (items : list ContentItem) : list string :=
  flat_map (fun item => heading item :: map text (body item)) items.

(** The options object of a request. *)
Definition callOptions (c : Prismic.Call) : Prismic.Options :=
  match c with
  | Prismic.GetByUID _ _ options => options
  | Prismic.Query _ options => options
  end.

(** What the component reads of a neighbour. *)
Definition neighborInputs (q : option Post) : option (option string * string) :=
  option_map (fun n => (uid n, title (data n))) q.

(** What the component reads of its props. *)
Definition renderedInputs (props : PostProps) :=
  (first_publication_date (post props),
   title (data (post props)),
   banner (data (post props)),
   author (data (post props)),
   content (data (post props)),
   neighborInputs (previousPost props),
   neighborInputs (nextPost props)).

Module Scenario.

(** The sample environment while the route is in fallback. *)
Definition envFallback : Env :=
  {| isFallback := true;
     Date_parse := Date_parse Sample.env;
     format := format Sample.env;
     hash := hash Sample.env;
     asHtml := asHtml Sample.env;
     clock := clock Sample.env |}.

(** The sample environment with a clock that does not advance during
    the render. *)
Definition envFrozen : Env := with_clock (fun _ => 1700000000000) Sample.env.

(** Props whose post has neither content nor banner. *)
Definition propsBare : PostProps :=
  {| post := {| first_publication_date := Undefined;
                last_publication_date := Undefined;
                uid := None;
                data := {| title := "Sem nada";
                           subtitle := None;
                           banner := None;
                           author := None;
                           content := None |} |};
     previousPost := None;
     nextPost := None;
     preview := false |}.

Definition quarto : Prismic.Document :=
  Sample.document "YA4" "quarto" "2021-04-02T08:00:00+0000" (Some Sample.image)
                  (Some "quatro") (Some "Caio").

(** A service whose middle document has a banner and both neighbours. *)
Definition storeWithNeighbors : list Prismic.Document :=
  [Sample.primeiro; Sample.terceiro; quarto].

Definition prismicWithNeighbors : Prismic.Client :=
  Sample.memoryClient storeWithNeighbors.

(** A document that was never published. *)
Definition rascunho : Prismic.Document :=
  {| Prismic.id := "YA9";
     Prismic.uid := Some "rascunho";
     Prismic.type := "posts";
     Prismic.href := "https://repo.cdn.prismic.io/api/v2/documents/search";
     Prismic.tags := [];
     Prismic.slugs := ["rascunho"];
     Prismic.lang := Some "pt-br";
     Prismic.first_publication_date := None;
     Prismic.last_publication_date := None;
     Prismic.data :=
       {| Prismic.title := "Rascunho";
          Prismic.subtitle := None;
          Prismic.author := Some "Ana";
          Prismic.banner := Some Sample.image;
          Prismic.content := Some [Sample.headingOnly];
          Prismic.other := [] |} |}.

(** A document without content blocks. *)
Definition semConteudo : Prismic.Document :=
  {| Prismic.id := "YA8";
     Prismic.uid := Some "sem-conteudo";
     Prismic.type := "posts";
     Prismic.href := "https://repo.cdn.prismic.io/api/v2/documents/search";
     Prismic.tags := [];
     Prismic.slugs := ["sem-conteudo"];
     Prismic.lang := Some "pt-br";
     Prismic.first_publication_date := Some "2021-03-15T19:25:28+0000";
     Prismic.last_publication_date := Some "2021-03-15T19:25:28+0000";
     Prismic.data :=
       {| Prismic.title := "Sem conteudo";
          Prismic.subtitle := None;
          Prismic.author := None;
          Prismic.banner := Some Sample.image;
          Prismic.content := None;
          Prismic.other := [] |} |}.

Definition prismicDrafts : Prismic.Client :=
  Sample.memoryClient [rascunho; semConteudo].

(** A client whose every call rejects. *)
Definition offline : Prismic.Client :=
  {| Prismic.getByUID := fun _ _ _ => Throw (ClientError "offline");
     Prismic.query := fun _ _ => Throw (ClientError "offline") |}.

(** A client that finds documents but rejects the ascending query. *)
Definition rejectsAscending : Prismic.Client :=
  {| Prismic.getByUID := Prismic.getByUID Sample.prismic;
     Prismic.query := fun q options =>
       match Prismic.orderings options with
       | Some o =>
           if String.eqb o "[document.first_publication_date]"
           then Throw (ClientError "timeout")
           else Prismic.query Sample.prismic q options
       | None => Prismic.query Sample.prismic q options
       end |}.

(** [n] documents "p1" ... "pn", newest first in the list. *)
Fixpoint manyDocuments (n : nat) : list Prismic.Document :=
  match n with
  | O => []
  | S k =>
      Sample.document ("ID" ++ Sample.showZ (Z.of_nat n))
                      ("p" ++ Sample.showZ (Z.of_nat n))
                      "2021-03-15T19:25:28+0000" (Some Sample.image) None None
      :: manyDocuments k
  end.

(** A context in preview mode with the reference [r]. *)
Definition previewContext (u r : string) : Context :=
  {| ctx_slug := PString u;
     ctx_preview := Some true;
     ctx_previewData := Some {| pd_ref := Just r |} |}.

(** The sample props and a variant that differs in what the component
    does not read: subtitle, uid and last publication date of the post,
    the preview flag, and the neighbour's dates and data beyond the
    title. *)
Definition neighborShort : Post :=
  {| first_publication_date := Undefined;
     last_publication_date := Undefined;
     uid := Some "primeiro";
     data := {| title := "Post primeiro"; subtitle := None; banner := None;
                author := None; content := None |} |}.

Definition neighborFull : Post :=
  {| first_publication_date := Just "2021-03-15T19:25:28+0000";
     last_publication_date := Null;
     uid := Some "primeiro";
     data := {| title := "Post primeiro"; subtitle := Some "um";
                banner := Some {| url := "https://images.prismic.io/b.png" |};
                author := Some "Ana"; content := Some [] |} |}.

Definition propsShown : PostProps :=
  {| post := Sample.postWith [Sample.headingOnly];
     previousPost := Some neighborShort;
     nextPost := None;
     preview := false |}.

Definition propsVariant : PostProps :=
  {| post :=
       {| first_publication_date := Just "2021-03-15T19:25:28+0000";
          last_publication_date := Undefined;
          uid := None;
          data := {| title := "Como utilizar Hooks";
                     subtitle := None;
                     banner := Some {| url := "https://images.prismic.io/banner.png" |};
                     author := Some "Joseph Oliveira";
                     content := Some [Sample.headingOnly] |} |};
     previousPost := Some neighborFull;
     nextPost := None;
     preview := true |}.

(** A document edited ten days after its first publication. *)
Definition editado : Prismic.Document :=
  {| Prismic.id := "YA7";
     Prismic.uid := Some "editado";
     Prismic.type := "posts";
     Prismic.href := "https://repo.cdn.prismic.io/api/v2/documents/search";
     Prismic.tags := ["react"];
     Prismic.slugs := ["editado"; "rascunho-antigo"];
     Prismic.lang := Some "pt-br";
     Prismic.first_publication_date := Some "2021-03-15T19:25:28+0000";
     Prismic.last_publication_date := Some "2021-03-25T19:27:35+0000";
     Prismic.data :=
       {| Prismic.title := "Post editado";
          Prismic.subtitle := Some "revisto";
          Prismic.author := Some "Bia";
          Prismic.banner := Some Sample.image;
          Prismic.content := Some [Sample.headingOnly];
          Prismic.other := [("seo", "x")] |} |}.

Definition prismicEdited : Prismic.Client := Sample.memoryClient [editado].

(** The range of the time values of a [Date]: at most 8.64e15
    milliseconds on either side of the epoch. *)
Definition validTimeValue (t : Z) : Prop :=
  -8640000000000000 <= t <= 8640000000000000.

(** The sample environment with a hash of finitely many digests: a
    number below 10^20, printed in decimal. *)
Definition envDigest : Env :=
  {| isFallback := false;
     Date_parse := Date_parse Sample.env;
     format := format Sample.env;
     hash := fun o =>
       Sample.showZ
         ((ts o + Z.of_nat (String.length (hi_heading o)))
          mod 100000000000000000000);
     asHtml := asHtml Sample.env;
     clock := clock Sample.env |}.

End Scenario.

(* ================================================================== *)
(** * Arithmetic of the reading time *)
(* ================================================================== *)

Section ReadingTime.

Lemma Math_round_integer (z : Z) : Math_round (inject_Z z) = z.
Proof.
  unfold Math_round, Qfloor, Qplus, inject_Z. simpl.
  replace (z * 2 + 1) with (1 + z * 2) by lia.
  rewrite Z.div_add by lia. reflexivity.
Qed.

Lemma Math_ceil_per_minute (n : Z) :
  Math_ceil (inject_Z n / inject_Z wordsPerMinute) = Spec.ceilDiv n 200.
Proof.
  unfold Math_ceil, Qceiling, Qfloor, Qdiv, Qmult, Qopp, inject_Z,
    wordsPerMinute, Spec.ceilDiv.
  simpl. rewrite Z.mul_1_r.
  apply Z.opp_inj. rewrite Z.opp_involutive.
  pose proof (Z.div_mod (n + 200 - 1) 200 ltac:(lia)) as E.
  pose proof (Z.mod_pos_bound (n + 200 - 1) 200 ltac:(lia)) as B.
  symmetry.
  apply Z.div_unique with (r := 199 - (n + 200 - 1) mod 200); lia.
Qed.

Lemma reduce_addBodyItem (fragments : list BodyItem) (acc2 : Z) :
  reduce addBodyItem acc2 fragments
  = acc2 + Spec.sumZ (map (fun f => Spec.spaceTokens (text f)) fragments).
Proof.
  unfold reduce. revert acc2.
  induction fragments as [|f rest IH]; intros acc2; simpl.
  - lia.
  - rewrite IH. unfold addBodyItem, Spec.spaceTokens. lia.
Qed.

Lemma reduce_addContentItem (items : list ContentItem) (acc : Z) :
  reduce addContentItem acc items = acc + Spec.spaceWords items.
Proof.
  unfold reduce, Spec.spaceWords, Spec.wordsBy. revert acc.
  induction items as [|item rest IH]; intros acc; simpl.
  - lia.
  - rewrite IH. unfold addContentItem.
    rewrite reduce_addBodyItem. unfold Spec.spaceTokens. lia.
Qed.

Lemma totalWords_spaceWords (items : list ContentItem) :
  totalWords items = Spec.spaceWords items.
Proof.
  unfold totalWords. rewrite Math_round_integer, reduce_addContentItem. lia.
Qed.

Lemma totalMinutes_ceilDiv (items : list ContentItem) :
  totalMinutes items = Spec.ceilDiv (Spec.spaceWords items) 200.
Proof.
  unfold totalMinutes.
  rewrite Math_ceil_per_minute, totalWords_spaceWords. reflexivity.
Qed.

(** Any split yields at least one token. *)
Lemma split_on_nonempty (p : ascii -> bool) (s : string) :
  (1 <= List.length (split_on p s))%nat.
Proof.
  induction s as [|c rest IH]; simpl.
  - lia.
  - destruct (p c); simpl; [lia|].
    destruct (split_on p rest); simpl in *; lia.
Qed.

Lemma spaceTokens_pos (s : string) : 1 <= Spec.spaceTokens s.
Proof.
  unfold Spec.spaceTokens, Js.length, split.
  pose proof (split_on_nonempty (Ascii.eqb " ") s). lia.
Qed.

Lemma sumZ_tokens_lower (fragments : list BodyItem) :
  Js.length fragments
  <= Spec.sumZ (map (fun f => Spec.spaceTokens (text f)) fragments).
Proof.
  unfold Js.length.
  induction fragments as [|f rest IH]; simpl; [lia|].
  pose proof (spaceTokens_pos (text f)). lia.
Qed.

Lemma addContentItem_lower (acc : Z) (item : ContentItem) :
  acc + 1 + Js.length (body item) <= addContentItem acc item.
Proof.
  unfold addContentItem. rewrite reduce_addBodyItem.
  pose proof (spaceTokens_pos (heading item)) as H.
  pose proof (sumZ_tokens_lower (body item)).
  unfold Spec.spaceTokens in H. lia.
Qed.

Lemma spaceWords_lower (items : list ContentItem) :
  Js.length items <= Spec.spaceWords items.
Proof.
  unfold Spec.spaceWords, Spec.wordsBy, Js.length.
  induction items as [|item rest IH]; simpl; [lia|].
  pose proof (spaceTokens_pos (heading item)).
  pose proof (sumZ_tokens_lower (body item)).
  unfold Js.length in *. lia.
Qed.

End ReadingTime.

(* ================================================================== *)
(** * What a completed render looks like *)
(* ================================================================== *)

Section Render.

Variable env : Env.
Variable props : PostProps.

Local Abbreviation fpd := (publicationDate env props).
Local Abbreviation pageOf := (pageOf env props).

Lemma Post_Page_inv (view : PageView) :
  Renderer.Post env props = Normal (Page view) ->
  isFallback env = false /\
  exists items b d1 d2,
    content (data (post props)) = Some items /\
    banner (data (post props)) = Some b /\
    format env fpd "dd MMM yyyy" ptBR = Normal d1 /\
    format env fpd "'* editado em 'dd MMM yyyy', às 'HH:mm" ptBR = Normal d2 /\
    view = pageOf items b d1 d2.
Proof.
  unfold Renderer.Post, fpd.
  destruct (isFallback env); [discriminate|].
  destruct (content (data (post props))) as [items|]; [|discriminate].
  destruct (banner (data (post props))) as [b|]; [|discriminate].
  destruct (format env _ "dd MMM yyyy" ptBR) as [d1|]; simpl; [|discriminate].
  destruct (format env _ _ ptBR) as [d2|]; simpl; [|discriminate].
  intros H. injection H as <-.
  split; [reflexivity|]. exists items, b, d1, d2. repeat split; reflexivity.
Qed.

Lemma Post_renders (items : list ContentItem) (b : Banner) (d1 d2 : string) :
  isFallback env = false ->
  content (data (post props)) = Some items ->
  banner (data (post props)) = Some b ->
  format env fpd "dd MMM yyyy" ptBR = Normal d1 ->
  format env fpd "'* editado em 'dd MMM yyyy', às 'HH:mm" ptBR = Normal d2 ->
  Renderer.Post env props = Normal (Page (pageOf items b d1 d2)).
Proof.
  unfold Renderer.Post, fpd. intros -> -> -> -> ->. reflexivity.
Qed.

End Render.

(* ================================================================== *)
(** * Reading time shown on the page *)
(* ================================================================== *)

Lemma ceilDiv_200_pos (w : Z) : 1 <= w -> 1 <= Spec.ceilDiv w 200.
Proof.
  intros H. unfold Spec.ceilDiv.
  apply Z.div_le_lower_bound; lia.
Qed.

Lemma ceilDiv_200_band (w k : Z) :
  200 * (k - 1) < w <= 200 * k -> Spec.ceilDiv w 200 = k.
Proof.
  intros H. unfold Spec.ceilDiv. symmetry.
  apply Z.div_unique with (r := w + 200 - 1 - 200 * k); lia.
Qed.

Example minutes_400_words : totalMinutes Sample.content400 = 2.
Proof. vm_compute. reflexivity. Qed.

Example minutes_401_words : totalMinutes Sample.content401 = 3.
Proof. vm_compute. reflexivity. Qed.

Example split_empty_string : split " " EmptyString = [EmptyString].
Proof. reflexivity. Qed.

Example split_double_space : split " " "a  b" = ["a"; EmptyString; "b"].
Proof. reflexivity. Qed.

Example split_ignores_line_feed :
  split " " (String "a" (String (ascii_of_nat 10) "b"))
  = [String "a" (String (ascii_of_nat 10) "b")].
Proof. reflexivity. Qed.

Example contentLines_counts :
  totalWords Sample.contentLines = 2 /\
  Spec.whitespaceWords Sample.contentLines = 202.
Proof. split; vm_compute; reflexivity. Qed.

(** C1, as stated, fails: the page does not count white-space-split
    tokens.  A one-word heading over a paragraph of 201 words separated
    by line feeds is two tokens for [split(' ')], so the page shows 1
    minute, while its 202 white-space-separated words give
    ceil(202 / 200) = 2 minutes.  (The words are separated by single
    line feeds and nothing leads or trails them, so the count of 202
    does not depend on how runs of white space are treated.) *)
Lemma reading_time_not_whitespace_split :
  ~ (forall env props view items,
        Renderer.Post env props = Normal (Page view) ->
        content (data (post props)) = Some items ->
        minutes_label view = Spec.whitespaceMinutes items).
Proof.
  intros H.
  assert (E : exists view,
             Renderer.Post Sample.env (Sample.propsWith Sample.contentLines)
             = Normal (Page view) /\ minutes_label view = 1).
  { eexists. split; [vm_compute; reflexivity | reflexivity]. }
  destruct E as [view [E1 E2]].
  specialize (H _ _ _ Sample.contentLines E1 eq_refl).
  rewrite E2 in H.
  assert (W : Spec.whitespaceMinutes Sample.contentLines = 2)
    by (vm_compute; reflexivity).
  rewrite W in H. discriminate.
Qed.

(** C1, amended: for every post rendered (not in fallback), the displayed
    reading time equals the ceiling of (total word count / 200), where
    the total word count is the sum, over every content block, of the
    number of tokens obtained by splitting the heading and the text of
    every body fragment on the single space character; the total is
    rounded to the nearest integer (which leaves it unchanged) before the
    division.  A total of exactly 400 words gives 2 minutes and totals of
    401 to 600 words give 3 minutes. *)
Theorem reading_time_space_split :
  forall env props view items,
    Renderer.Post env props = Normal (Page view) ->
    content (data (post props)) = Some items ->
    isFallback env = false /\
    totalWords items = Spec.spaceWords items /\
    minutes_label view
    = Math_ceil (inject_Z (Math_round (inject_Z (Spec.spaceWords items)))
                 / inject_Z 200) /\
    minutes_label view = Spec.ceilDiv (Spec.spaceWords items) 200 /\
    (Spec.spaceWords items = 400 -> minutes_label view = 2) /\
    (401 <= Spec.spaceWords items <= 600 -> minutes_label view = 3).
Proof.
  intros env props view items HP Hc.
  apply Post_Page_inv in HP.
  destruct HP as [Hf (items' & b & d1 & d2 & Hc' & _ & _ & _ & ->)].
  rewrite Hc in Hc'. injection Hc' as <-.
  assert (M : minutes_label (pageOf env props items b d1 d2)
              = Spec.ceilDiv (Spec.spaceWords items) 200)
    by apply totalMinutes_ceilDiv.
  repeat split.
  - exact Hf.
  - apply totalWords_spaceWords.
  - rewrite Math_round_integer. simpl minutes_label.
    unfold totalMinutes. rewrite totalWords_spaceWords. reflexivity.
  - exact M.
  - intros W. rewrite M. apply ceilDiv_200_band. lia.
  - intros W. rewrite M. apply ceilDiv_200_band. lia.
Qed.

Lemma reading_time_space_split_witness :
  exists view,
    Renderer.Post Sample.env (Sample.propsWith Sample.content400)
    = Normal (Page view) /\
    Spec.spaceWords Sample.content400 = 400 /\
    minutes_label view = 2.
Proof.
  eexists. split; [vm_compute; reflexivity|].
  split; [vm_compute; reflexivity|].
  refine (proj1 (proj2 (proj2 (proj2 (proj2
    (reading_time_space_split Sample.env
       (Sample.propsWith Sample.content400) _ Sample.content400
       _ eq_refl))))) _).
  - vm_compute; reflexivity.
  - vm_compute; reflexivity.
Defined.

(** C10, as stated, fails: a block whose body is the empty array
    contributes one word, not two. *)
Lemma empty_body_block_counts_one_word :
  ~ (forall items,
        items <> [] ->
        (forall item acc, In item items -> acc + 2 <= addContentItem acc item) /\
        1 <= totalMinutes items).
Proof.
  intros H.
  destruct (H [Sample.headingOnly]) as [H2 _]; [discriminate|].
  specialize (H2 Sample.headingOnly 0 (or_introl eq_refl)).
  assert (E : addContentItem 0 Sample.headingOnly = 1) by reflexivity.
  rewrite E in H2. lia.
Qed.

(** C10, amended: for every post whose content array is non-empty, the
    computed reading time is at least 1 minute: splitting any string on
    a single space, the empty string included, yields at least one
    token, so each content block contributes at least one word (one for
    the heading, and at least one per body fragment), making the total
    word count positive and its ceiling after division by 200 at least
    1. *)
Theorem reading_time_at_least_one_minute :
  forall props items,
    content (data (post props)) = Some items ->
    items <> [] ->
    (forall s, 1 <= Js.length (split " " s)) /\
    (forall item acc,
        In item items ->
        acc + 1 + Js.length (body item) <= addContentItem acc item) /\
    1 <= totalWords items /\
    1 <= totalMinutes items /\
    (forall env view,
        Renderer.Post env props = Normal (Page view) ->
        1 <= minutes_label view).
Proof.
  intros props items Hc Hne.
  assert (W : 1 <= Spec.spaceWords items).
  { pose proof (spaceWords_lower items) as L.
    destruct items as [|i rest]; [congruence|].
    unfold Js.length in L. simpl List.length in L. lia. }
  assert (M : 1 <= totalMinutes items).
  { rewrite totalMinutes_ceilDiv. apply ceilDiv_200_pos, W. }
  repeat split.
  - apply spaceTokens_pos.
  - intros item acc _. apply addContentItem_lower.
  - rewrite totalWords_spaceWords. exact W.
  - exact M.
  - intros env view HP. apply Post_Page_inv in HP.
    destruct HP as [_ (items' & b & d1 & d2 & Hc' & _ & _ & _ & ->)].
    rewrite Hc in Hc'. injection Hc' as <-. exact M.
Qed.

Lemma reading_time_at_least_one_minute_witness :
  1 <= totalMinutes [Sample.headingOnly].
Proof.
  refine (proj1 (proj2 (proj2 (proj2
    (reading_time_at_least_one_minute
       (Sample.propsWith [Sample.headingOnly]) [Sample.headingOnly]
       eq_refl _))))).
  discriminate.
Defined.

(* ================================================================== *)
(** * Runs of the prop builder *)
(* ================================================================== *)

Section Builder.

Variable prismic : Prismic.Client.
Variable ctx : Context.

Local Abbreviation lookup := (lookup prismic ctx).
Local Abbreviation previousQuery := (previousQuery prismic ctx).
Local Abbreviation nextQuery := (nextQuery prismic ctx).

Lemma getStaticProps_not_found :
  lookup = Normal None ->
  run (getStaticProps prismic ctx)
  = (Normal (Redirect "/" false),
     [Prismic.GetByUID "posts" (String_ (ctx_slug ctx)) (byUIDOptions ctx)]).
Proof.
  unfold lookup, run, getStaticProps, bind, await_getByUID.
  intros ->. reflexivity.
Qed.

Lemma getStaticProps_lookup_rejected (e : Error) :
  lookup = Throw e ->
  run (getStaticProps prismic ctx)
  = (Throw e,
     [Prismic.GetByUID "posts" (String_ (ctx_slug ctx)) (byUIDOptions ctx)]).
Proof.
  unfold lookup, run, getStaticProps, bind, await_getByUID.
  intros ->. reflexivity.
Qed.

Lemma getStaticProps_found (doc : Prismic.Document)
    (prevR nextR : Prismic.ApiSearchResponse) :
  lookup = Normal (Some doc) ->
  previousQuery doc = Normal prevR ->
  nextQuery doc = Normal nextR ->
  run (getStaticProps prismic ctx)
  = (match Prismic.banner (Prismic.data doc) with
     | Some b => Normal (Props (propsOf ctx doc b prevR nextR) 300)
     | None => Throw (TypeError "Cannot read property 'url' of undefined")
     end,
     requestsOf ctx doc).
Proof.
  unfold lookup, previousQuery, nextQuery, run, getStaticProps, bind,
    await_getByUID, await_query.
  intros -> -> ->. simpl.
  destruct (Prismic.banner (Prismic.data doc)); reflexivity.
Qed.

(** A found document never leads to a redirect, and one without banner
    never leads to a result. *)
Lemma getStaticProps_found_result (doc : Prismic.Document)
    (res : StaticPropsResult) :
  lookup = Normal (Some doc) ->
  fst (run (getStaticProps prismic ctx)) = Normal res ->
  exists b prevR nextR,
    Prismic.banner (Prismic.data doc) = Some b /\
    previousQuery doc = Normal prevR /\
    nextQuery doc = Normal nextR /\
    res = Props (propsOf ctx doc b prevR nextR) 300.
Proof.
  intros Hl.
  unfold run, getStaticProps, bind, await_getByUID, await_query.
  fold lookup. rewrite Hl. simpl.
  fold (previousQuery doc). fold (nextQuery doc).
  destruct (previousQuery doc) as [prevR|]; simpl; [|discriminate].
  destruct (nextQuery doc) as [nextR|]; simpl; [|discriminate].
  destruct (Prismic.banner (Prismic.data doc)) as [b|]; simpl; [|discriminate].
  intros H. injection H as <-.
  exists b, prevR, nextR. repeat split; reflexivity.
Qed.

(** The builder redirects exactly when the lookup resolves to no
    document, and then to "/" and not permanently. *)
Lemma getStaticProps_redirect_iff (destination : string) (permanent : bool) :
  fst (run (getStaticProps prismic ctx)) = Normal (Redirect destination permanent)
  <-> lookup = Normal None /\ destination = "/" /\ permanent = false.
Proof.
  split.
  - destruct lookup as [[doc|]|e] eqn:Hl.
    + intros H. apply (getStaticProps_found_result doc) in H; [|exact Hl].
      destruct H as (b & prevR & nextR & _ & _ & _ & H). discriminate.
    + rewrite (getStaticProps_not_found Hl). simpl.
      intros H. injection H as <- <-. auto.
    + rewrite (getStaticProps_lookup_rejected e Hl). discriminate.
  - intros (Hl & -> & ->). rewrite (getStaticProps_not_found Hl). reflexivity.
Qed.

End Builder.

(* ================================================================== *)
(** * The prop builder: redirect, failure and neighbours *)
(* ================================================================== *)

(** C2, on the document "sem-banner" of the sample service: the document
    is found, so the claim promises a props bundle; the builder sends
    its three requests and then throws at [response.data.banner.url],
    returning neither a redirect nor props. *)
Theorem getStaticProps_found_without_banner :
  exists doc,
    Prismic.getByUID Sample.prismic "posts" "sem-banner"
      (byUIDOptions (Sample.contextFor "sem-banner")) = Normal (Some doc) /\
    Prismic.banner (Prismic.data doc) = None /\
    run (getStaticProps Sample.prismic (Sample.contextFor "sem-banner"))
    = (Throw (TypeError "Cannot read property 'url' of undefined"),
       requestsOf (Sample.contextFor "sem-banner") doc) /\
    forall res,
      fst (run (getStaticProps Sample.prismic (Sample.contextFor "sem-banner")))
      <> Normal res.
Proof.
  eexists. split; [vm_compute; reflexivity|].
  split; [reflexivity|].
  split; [vm_compute; reflexivity|].
  intros res. vm_compute. discriminate.
Qed.

(** C3: after the main document is found, the builder issues exactly two
    queries over "posts"-type documents, each with page size 1 and cursor
    after the found document's internal id: one ordered by
    first-publication-date descending, whose first result when present
    becomes previousPost, and one ordered ascending, whose first result
    when present becomes nextPost; a query without results leaves the
    corresponding field null. *)
Theorem neighbor_queries :
  forall prismic ctx doc prevR nextR,
    let options ordering :=
      {| Prismic.fetch := Some ["posts.title"];
         Prismic.after := Some (Prismic.id doc);
         Prismic.orderings := Some ordering;
         Prismic.pageSize := Some 1;
         Prismic.ref := previewRef ctx |} in
    let posts := [Prismic.at_ "document.type" "posts"] in
    Prismic.getByUID prismic "posts" (String_ (ctx_slug ctx)) (byUIDOptions ctx)
    = Normal (Some doc) ->
    Prismic.query prismic posts (options "[document.first_publication_date desc]")
    = Normal prevR ->
    Prismic.query prismic posts (options "[document.first_publication_date]")
    = Normal nextR ->
    snd (run (getStaticProps prismic ctx))
    = [ Prismic.GetByUID "posts" (String_ (ctx_slug ctx)) (byUIDOptions ctx);
        Prismic.Query posts (options "[document.first_publication_date desc]");
        Prismic.Query posts (options "[document.first_publication_date]") ] /\
    forall b,
      Prismic.banner (Prismic.data doc) = Some b ->
      exists p,
        fst (run (getStaticProps prismic ctx)) = Normal (Props p 300) /\
        (Prismic.results prevR = [] -> previousPost p = None) /\
        (Prismic.results nextR = [] -> nextPost p = None) /\
        (forall first rest,
            Prismic.results prevR = first :: rest ->
            exists q, previousPost p = Some q /\
                      uid q = Prismic.uid first /\
                      title (data q) = Prismic.title (Prismic.data first)) /\
        (forall first rest,
            Prismic.results nextR = first :: rest ->
            exists q, nextPost p = Some q /\
                      uid q = Prismic.uid first /\
                      title (data q) = Prismic.title (Prismic.data first)).
Proof.
  intros prismic ctx doc prevR nextR options posts Hl Hp Hn.
  rewrite (getStaticProps_found prismic ctx doc prevR nextR Hl Hp Hn).
  split; [reflexivity|].
  intros b ->. exists (propsOf ctx doc b prevR nextR).
  split; [reflexivity|]. simpl.
  repeat split.
  - intros ->. reflexivity.
  - intros ->. reflexivity.
  - intros first rest ->. eexists. repeat split.
  - intros first rest ->. eexists. repeat split.
Qed.

Lemma neighbor_queries_witness :
  snd (run (getStaticProps Sample.prismic (Sample.contextFor "terceiro")))
  = [ Prismic.GetByUID "posts" "terceiro"
        (byUIDOptions (Sample.contextFor "terceiro"));
      Prismic.Query [Prismic.at_ "document.type" "posts"]
        {| Prismic.fetch := Some ["posts.title"];
           Prismic.after := Some "YA3";
           Prismic.orderings := Some "[document.first_publication_date desc]";
           Prismic.pageSize := Some 1;
           Prismic.ref := Null |};
      Prismic.Query [Prismic.at_ "document.type" "posts"]
        {| Prismic.fetch := Some ["posts.title"];
           Prismic.after := Some "YA3";
           Prismic.orderings := Some "[document.first_publication_date]";
           Prismic.pageSize := Some 1;
           Prismic.ref := Null |} ].
Proof.
  refine (proj1 (neighbor_queries Sample.prismic (Sample.contextFor "terceiro")
                   Sample.terceiro _ _ _ _ _)).
  - vm_compute; reflexivity.
  - vm_compute; reflexivity.
  - vm_compute; reflexivity.
Defined.

(** C4: for every found document whose banner field is absent, prop
    building fails, at the unguarded access to the banner URL; a missing
    subtitle or author is passed through as it is, without error. *)
Theorem absent_banner_fails_other_fields_pass :
  forall prismic ctx doc,
    Prismic.getByUID prismic "posts" (String_ (ctx_slug ctx)) (byUIDOptions ctx)
    = Normal (Some doc) ->
    (Prismic.banner (Prismic.data doc) = None ->
     (exists e, fst (run (getStaticProps prismic ctx)) = Throw e) /\
     (forall prevR nextR,
         Prismic.query prismic postsPredicate
           (neighborOptions ctx doc "[document.first_publication_date desc]")
         = Normal prevR ->
         Prismic.query prismic postsPredicate
           (neighborOptions ctx doc "[document.first_publication_date]")
         = Normal nextR ->
         fst (run (getStaticProps prismic ctx))
         = Throw (TypeError "Cannot read property 'url' of undefined"))) /\
    (forall b prevR nextR,
        Prismic.banner (Prismic.data doc) = Some b ->
        Prismic.query prismic postsPredicate
          (neighborOptions ctx doc "[document.first_publication_date desc]")
        = Normal prevR ->
        Prismic.query prismic postsPredicate
          (neighborOptions ctx doc "[document.first_publication_date]")
        = Normal nextR ->
        exists p,
          fst (run (getStaticProps prismic ctx)) = Normal (Props p 300) /\
          subtitle (data (post p)) = Prismic.subtitle (Prismic.data doc) /\
          author (data (post p)) = Prismic.author (Prismic.data doc)).
Proof.
  intros prismic ctx doc Hl. split.
  - intros Hb. split.
    + destruct (fst (run (getStaticProps prismic ctx))) as [res|e] eqn:E.
      * apply (getStaticProps_found_result prismic ctx doc) in E; [|exact Hl].
        destruct E as (b & _ & _ & Hb' & _). congruence.
      * exists e. reflexivity.
    + intros prevR nextR Hp Hn.
      rewrite (getStaticProps_found prismic ctx doc prevR nextR Hl Hp Hn).
      rewrite Hb. reflexivity.
  - intros b prevR nextR Hb Hp Hn.
    rewrite (getStaticProps_found prismic ctx doc prevR nextR Hl Hp Hn).
    rewrite Hb. eexists. repeat split.
Qed.

Lemma absent_banner_fails_other_fields_pass_witness :
  (exists e,
      fst (run (getStaticProps Sample.prismic (Sample.contextFor "sem-banner")))
      = Throw e) /\
  (exists p,
      fst (run (getStaticProps Sample.prismic (Sample.contextFor "terceiro")))
      = Normal (Props p 300) /\
      subtitle (data (post p)) = None /\
      author (data (post p)) = None).
Proof.
  split.
  - refine (proj1 (proj1 (absent_banner_fails_other_fields_pass
                            Sample.prismic (Sample.contextFor "sem-banner")
                            Sample.semBanner _) _)).
    + vm_compute; reflexivity.
    + reflexivity.
  - refine (proj2 (absent_banner_fails_other_fields_pass
                     Sample.prismic (Sample.contextFor "terceiro")
                     Sample.terceiro _) _ _ _ _ _ _).
    + vm_compute; reflexivity.
    + reflexivity.
    + vm_compute; reflexivity.
    + vm_compute; reflexivity.
Defined.

(* ================================================================== *)
(** * Navigation *)
(* ================================================================== *)

(** C6: for every document without an earlier-published neighbour (the
    descending query has no result), previousPost is null, no
    previous-post link is rendered and the navigation row's flex
    direction is row-reverse; when a previous post exists the direction
    is row (and the link to it is rendered). *)
Theorem no_previous_post_reverses_navigation :
  forall prismic ctx doc b prevR nextR env,
    Prismic.getByUID prismic "posts" (String_ (ctx_slug ctx)) (byUIDOptions ctx)
    = Normal (Some doc) ->
    Prismic.banner (Prismic.data doc) = Some b ->
    Prismic.query prismic postsPredicate
      (neighborOptions ctx doc "[document.first_publication_date desc]")
    = Normal prevR ->
    Prismic.query prismic postsPredicate
      (neighborOptions ctx doc "[document.first_publication_date]")
    = Normal nextR ->
    exists p,
      fst (run (getStaticProps prismic ctx)) = Normal (Props p 300) /\
      (Prismic.results prevR = [] ->
       previousPost p = None /\
       forall view,
         Renderer.Post env p = Normal (Page view) ->
         flexDirection view = row_reverse /\ postAnterior view = None) /\
      (forall first rest,
          Prismic.results prevR = first :: rest ->
          forall view,
            Renderer.Post env p = Normal (Page view) ->
            flexDirection view = row /\
            postAnterior view
            = Some {| href := "/post/" ++ interpolate (Prismic.uid first);
                      className := "postAnterior";
                      link_title := Prismic.title (Prismic.data first);
                      caption := "Post anterior" |}) /\
      (forall props view,
          Renderer.Post env props = Normal (Page view) ->
          (previousPost props = None ->
           flexDirection view = row_reverse /\ postAnterior view = None) /\
          (forall q, previousPost props = Some q ->
                     flexDirection view = row /\
                     postAnterior view
                     = Some (Renderer.linkTo "postAnterior" "Post anterior" q))).
Proof.
  intros prismic ctx doc b prevR nextR env Hl Hb Hp Hn.
  rewrite (getStaticProps_found prismic ctx doc prevR nextR Hl Hp Hn), Hb.
  exists (propsOf ctx doc b prevR nextR).
  split; [reflexivity|].
  assert (G : forall props view,
             Renderer.Post env props = Normal (Page view) ->
             (previousPost props = None ->
              flexDirection view = row_reverse /\ postAnterior view = None) /\
             (forall q, previousPost props = Some q ->
                        flexDirection view = row /\
                        postAnterior view
                        = Some (Renderer.linkTo "postAnterior" "Post anterior" q))).
  { intros props view HP. apply Post_Page_inv in HP.
    destruct HP as [_ (items & bn & d1 & d2 & _ & _ & _ & _ & ->)].
    simpl. split.
    - intros ->. split; reflexivity.
    - intros q ->. split; reflexivity. }
  split; [|split; [|exact G]].
  - intros Hr. split.
    + simpl. rewrite Hr. reflexivity.
    + intros view HP. apply (G _ _ HP). simpl. rewrite Hr. reflexivity.
  - intros first rest Hr view HP.
    destruct (G _ _ HP) as [_ G2].
    apply (G2 (mkPost Undefined Undefined (Prismic.uid first)
                 (mkPostData (Prismic.title (Prismic.data first))
                             None None None None))).
    simpl. rewrite Hr. reflexivity.
Qed.

Lemma no_previous_post_reverses_navigation_witness :
  exists p view,
    fst (run (getStaticProps Sample.prismic (Sample.contextFor "primeiro")))
    = Normal (Props p 300) /\
    previousPost p = None /\
    Renderer.Post Sample.env p = Normal (Page view) /\
    flexDirection view = row_reverse /\
    postAnterior view = None.
Proof.
  destruct (no_previous_post_reverses_navigation
              Sample.prismic (Sample.contextFor "primeiro") Sample.primeiro
              Sample.image
              {| Prismic.page := 1; Prismic.total_results_size := 0;
                 Prismic.results := [] |}
              {| Prismic.page := 1; Prismic.total_results_size := 2;
                 Prismic.results := [Sample.semBanner] |}
              Sample.env eq_refl eq_refl eq_refl eq_refl)
    as (p & Hrun & Hnone & _).
  exists p.
  destruct (Hnone eq_refl) as [Hprev Hview].
  vm_compute in Hrun. injection Hrun as <-.
  eexists. split; [vm_compute; reflexivity|].
  split; [reflexivity|].
  split; [vm_compute; reflexivity|].
  split; reflexivity.
Defined.

(* ================================================================== *)
(** * Shape of the props bundle *)
(* ================================================================== *)

(** C8: the props bundle copies through only the listed fields of the
    found document (uid, first and last publication dates, title,
    subtitle, author, content blocks and the banner URL), and each
    neighbour reference carries only the uid and the title; every other
    content-service field is dropped: two found documents that agree on
    the listed fields give the same post, and two first results that
    agree on uid and title give the same reference. *)
Theorem props_copy_only_listed_fields :
  forall prismic ctx doc p r,
    Prismic.getByUID prismic "posts" (String_ (ctx_slug ctx)) (byUIDOptions ctx)
    = Normal (Some doc) ->
    fst (run (getStaticProps prismic ctx)) = Normal (Props p r) ->
    (uid (post p) = Prismic.uid doc /\
     first_publication_date (post p)
     = match Prismic.first_publication_date doc with
       | Some date => Just date
       | None => Null
       end /\
     last_publication_date (post p)
     = match Prismic.last_publication_date doc with
       | Some date => Just date
       | None => Null
       end /\
     title (data (post p)) = Prismic.title (Prismic.data doc) /\
     subtitle (data (post p)) = Prismic.subtitle (Prismic.data doc) /\
     author (data (post p)) = Prismic.author (Prismic.data doc) /\
     content (data (post p)) = Prismic.content (Prismic.data doc) /\
     option_map url (banner (data (post p)))
     = option_map Prismic.url (Prismic.banner (Prismic.data doc))) /\
    (forall prismic' ctx' doc' p' r',
        Prismic.getByUID prismic' "posts" (String_ (ctx_slug ctx'))
          (byUIDOptions ctx') = Normal (Some doc') ->
        fst (run (getStaticProps prismic' ctx')) = Normal (Props p' r') ->
        Spec.listedFields doc' = Spec.listedFields doc ->
        post p' = post p) /\
    (exists prevR nextR,
        Prismic.query prismic postsPredicate
          (neighborOptions ctx doc "[document.first_publication_date desc]")
        = Normal prevR /\
        Prismic.query prismic postsPredicate
          (neighborOptions ctx doc "[document.first_publication_date]")
        = Normal nextR /\
        let reference fields :=
          {| first_publication_date := Undefined;
             last_publication_date := Undefined;
             uid := fst fields;
             data := {| title := snd fields;
                        subtitle := None;
                        banner := None;
                        author := None;
                        content := None |} |} in
        previousPost p
        = option_map reference
            (option_map Spec.referenceFields (List.hd_error (Prismic.results prevR))) /\
        nextPost p
        = option_map reference
            (option_map Spec.referenceFields (List.hd_error (Prismic.results nextR)))).
Proof.
  intros prismic ctx doc p r Hl Hrun.
  apply (getStaticProps_found_result prismic ctx doc) in Hrun; [|exact Hl].
  destruct Hrun as (b & prevR & nextR & Hb & Hp & Hn & E).
  injection E as -> ->.
  split; [|split].
  - simpl. rewrite Hb. repeat split; reflexivity.
  - intros prismic' ctx' doc' p' r' Hl' Hrun' Hf.
    apply (getStaticProps_found_result prismic' ctx' doc') in Hrun'; [|exact Hl'].
    destruct Hrun' as (b' & prevR' & nextR' & Hb' & _ & _ & E').
    injection E' as -> ->.
    unfold Spec.listedFields in Hf. rewrite Hb, Hb' in Hf. simpl in Hf.
    injection Hf as H1 H2 H3 H4 H5 H6 H7 H8.
    simpl. congruence.
  - exists prevR, nextR. split; [exact Hp|]. split; [exact Hn|].
    simpl. split.
    + destruct (Prismic.results prevR); reflexivity.
    + destruct (Prismic.results nextR); reflexivity.
Qed.

Lemma props_copy_only_listed_fields_witness :
  exists p,
    fst (run (getStaticProps Scenario.prismicEdited (Sample.contextFor "editado")))
    = Normal (Props p 300) /\
    uid (post p) = Some "editado" /\
    first_publication_date (post p) = Just "2021-03-15T19:25:28+0000" /\
    last_publication_date (post p) = Just "2021-03-25T19:27:35+0000" /\
    title (data (post p)) = "Post editado" /\
    subtitle (data (post p)) = Some "revisto" /\
    author (data (post p)) = Some "Bia" /\
    content (data (post p)) = Some [Sample.headingOnly] /\
    option_map url (banner (data (post p)))
    = Some "https://images.prismic.io/banner.png".
Proof.
  eexists. split; [vm_compute; reflexivity|].
  exact (proj1 (props_copy_only_listed_fields
                  Scenario.prismicEdited (Sample.contextFor "editado")
                  Scenario.editado _ 300 eq_refl eq_refl)).
Defined.

(* ================================================================== *)
(** * Path enumeration *)
(* ================================================================== *)

(** C7: path enumeration sends one query for all "posts"-type
    documents, with page size 100 and an empty fetch list; when the
    service holds K <= 100 such documents (so that its first page holds
    them all) the enumerator returns exactly K route parameters, one per
    document identifier, with fallback enabled. *)
Theorem getStaticPaths_one_path_per_document :
  forall prismic docs response,
    let request :=
      Prismic.Query [Prismic.at_ "document.type" "posts"]
        {| Prismic.fetch := Some [];
           Prismic.after := None;
           Prismic.orderings := None;
           Prismic.pageSize := Some 100;
           Prismic.ref := Undefined |} in
    Prismic.query prismic postsPredicate pathsOptions = Normal response ->
    Prismic.results response = firstn 100 docs ->
    (List.length docs <= 100)%nat ->
    exists result,
      run (getStaticPaths prismic) = (Normal result, [request]) /\
      List.length (paths result) = List.length docs /\
      map (fun path => slug (params path)) (paths result)
      = map Prismic.uid docs /\
      fallback result = true.
Proof.
  intros prismic docs response request Hq Hr Hk.
  unfold run, getStaticPaths, bind, await_query, ret. rewrite Hq. simpl.
  eexists. split; [reflexivity|]. simpl.
  rewrite Hr, firstn_all2 by exact Hk.
  rewrite length_map, map_map. simpl.
  repeat split.
Qed.

Lemma getStaticPaths_one_path_per_document_witness :
  exists result,
    run (getStaticPaths Sample.prismic)
    = (Normal result,
       [Prismic.Query [Prismic.at_ "document.type" "posts"]
          {| Prismic.fetch := Some [];
             Prismic.after := None;
             Prismic.orderings := None;
             Prismic.pageSize := Some 100;
             Prismic.ref := Undefined |}]) /\
    List.length (paths result) = 3%nat /\
    map (fun path => slug (params path)) (paths result)
    = [Some "primeiro"; Some "sem-banner"; Some "terceiro"] /\
    fallback result = true.
Proof.
  refine (getStaticPaths_one_path_per_document Sample.prismic Sample.store
            {| Prismic.page := 1; Prismic.total_results_size := 3;
               Prismic.results := Sample.store |} _ _ _).
  - vm_compute; reflexivity.
  - reflexivity.
  - simpl; lia.
Defined.

(* ================================================================== *)
(** * Dates *)
(* ================================================================== *)

Lemma Post_ignores_last_publication_date (env : Env) (props : PostProps)
    (v : Nullable string) :
  Renderer.Post env (with_last_publication_date v props)
  = Renderer.Post env props.
Proof. reflexivity. Qed.

(** C5: for every rendered post, the main date label (pattern
    "dd MMM yyyy", pt-BR locale) and the "* editado em <date>, às <time>"
    line are both computed from the first-publication-date; the
    edited-at line does not use the last-publication-date, whose value
    leaves the page unchanged. *)
Theorem both_dates_from_first_publication_date :
  forall env props view,
    Renderer.Post env props = Normal (Page view) ->
    let date := new_Date env (first_publication_date (post props)) in
    format env date "dd MMM yyyy" ptBR = Normal (date_label view) /\
    format env date "'* editado em 'dd MMM yyyy', às 'HH:mm" ptBR
    = Normal (infoUpdate view) /\
    forall v,
      Renderer.Post env (with_last_publication_date v props)
      = Normal (Page view).
Proof.
  intros env props view HP date.
  pose proof HP as HP'. apply Post_Page_inv in HP'.
  destruct HP' as [_ (items & b & d1 & d2 & _ & _ & H1 & H2 & ->)].
  split; [exact H1|]. split; [exact H2|].
  intros v. rewrite Post_ignores_last_publication_date. exact HP.
Qed.

Lemma both_dates_from_first_publication_date_witness :
  exists view,
    Renderer.Post Sample.env (Sample.propsWith [Sample.headingOnly])
    = Normal (Page view) /\
    date_label view = "dd MMM yyyy@1615836328000" /\
    infoUpdate view = "'* editado em 'dd MMM yyyy', às 'HH:mm@1615836328000" /\
    Renderer.Post Sample.env
      (with_last_publication_date Null (Sample.propsWith [Sample.headingOnly]))
    = Normal (Page view).
Proof.
  eexists. split; [vm_compute; reflexivity|].
  pose proof (both_dates_from_first_publication_date Sample.env
                (Sample.propsWith [Sample.headingOnly]) _ eq_refl) as H.
  destruct H as (_ & _ & H3).
  split; [reflexivity|]. split; [reflexivity|].
  exact (H3 Null).
Defined.

(* ================================================================== *)
(** * List keys of the content blocks *)
(* ================================================================== *)

Lemma mapContent_nth (env : Env) (items : list ContentItem) :
  forall n i item,
    nth_error items i = Some item ->
    nth_error (Renderer.mapContent env n items) i
    = Some {| key := hash env (Renderer.keyed item (clock env (n + i)));
              h2 := heading item;
              innerHTML := asHtml env (body item) |}.
Proof.
  induction items as [|first rest IH]; intros n i item H.
  - destruct i; discriminate.
  - destruct i as [|i]; simpl in *.
    + injection H as ->. rewrite Nat.add_0_r. reflexivity.
    + rewrite (IH (S n) i item H).
      replace (S n + i)%nat with (n + S i)%nat by lia. reflexivity.
Qed.

Lemma showZ_inj (x y : Z) : Sample.showZ x = Sample.showZ y -> x = y.
Proof.
  unfold Sample.showZ. intros H.
  apply (f_equal NilEmpty.int_of_string) in H.
  rewrite !NilEmpty.isi in H. injection H as H.
  apply (f_equal Z.of_int) in H. rewrite !DecimalZ.of_to in H. exact H.
Qed.

Lemma mod_eq_close (a b m : Z) :
  0 < m -> a mod m = b mod m -> - m < a - b < m -> a = b.
Proof.
  intros Hm E B.
  pose proof (Z.div_mod a m ltac:(lia)) as Da.
  pose proof (Z.div_mod b m ltac:(lia)) as Db.
  rewrite E in Da.
  assert (Q : a / m = b / m) by nia.
  rewrite Q in Da. lia.
Qed.

(** The hash of [Scenario.envDigest] has at most 10^20 digests and still
    tells apart any two time values of one block. *)
Lemma digest_hash_separates_time_values :
  forall h b t1 t2,
    Scenario.validTimeValue t1 ->
    Scenario.validTimeValue t2 ->
    hash Scenario.envDigest {| hi_heading := h; hi_body := b; ts := t1 |}
    = hash Scenario.envDigest {| hi_heading := h; hi_body := b; ts := t2 |} ->
    t1 = t2.
Proof.
  unfold Scenario.validTimeValue. intros h b t1 t2 V1 V2. simpl. intros H.
  apply showZ_inj in H.
  apply mod_eq_close in H; lia.
Qed.

(** C9: the list key of each rendered content block is the hash of the
    block's fields combined with the clock reading taken while that
    block is rendered.  Two renders of the same block at different times
    hash different objects, so their keys can coincide only where the
    hash collides on two different objects; with a hash that tells apart
    the time values of the block, the keys differ: the key is not a
    function of the block alone. *)
Theorem content_key_depends_on_clock :
  forall env clock2 props items i item view1 view2,
    content (data (post props)) = Some items ->
    nth_error items i = Some item ->
    Renderer.Post env props = Normal (Page view1) ->
    Renderer.Post (with_clock clock2 env) props = Normal (Page view2) ->
    let hashed now :=
      {| hi_heading := heading item; hi_body := body item; ts := now |} in
    let key1 := option_map key (nth_error (contents view1) i) in
    let key2 := option_map key (nth_error (contents view2) i) in
    key1 = Some (hash env (hashed (clock env i))) /\
    key2 = Some (hash env (hashed (clock2 i))) /\
    (clock env i <> clock2 i -> hashed (clock env i) <> hashed (clock2 i)) /\
    (key1 = key2 ->
     clock env i = clock2 i \/
     (hashed (clock env i) <> hashed (clock2 i) /\
      hash env (hashed (clock env i)) = hash env (hashed (clock2 i)))) /\
    ((forall t1 t2,
         Scenario.validTimeValue t1 ->
         Scenario.validTimeValue t2 ->
         hash env (hashed t1) = hash env (hashed t2) ->
         t1 = t2) ->
     Scenario.validTimeValue (clock env i) ->
     Scenario.validTimeValue (clock2 i) ->
     clock env i <> clock2 i ->
     key1 <> key2).
Proof.
  intros env clock2 props items i item view1 view2 Hc Hi HP1 HP2
    hashed key1 key2.
  apply Post_Page_inv in HP1.
  destruct HP1 as [_ (items1 & b1 & d1 & d1' & Hc1 & _ & _ & _ & ->)].
  apply Post_Page_inv in HP2.
  destruct HP2 as [_ (items2 & b2 & d2 & d2' & Hc2 & _ & _ & _ & ->)].
  rewrite Hc in Hc1, Hc2. injection Hc1 as <-. injection Hc2 as <-.
  subst key1 key2. simpl contents.
  rewrite (mapContent_nth env items 0 i item Hi).
  rewrite (mapContent_nth (with_clock clock2 env) items 0 i item Hi).
  simpl.
  assert (D : clock env i <> clock2 i -> hashed (clock env i) <> hashed (clock2 i)).
  { intros Hne E. apply Hne. injection E as E. exact E. }
  split; [reflexivity|]. split; [reflexivity|]. split; [exact D|]. split.
  - intros E. injection E as E.
    destruct (Z.eq_dec (clock env i) (clock2 i)) as [Heq|Hne].
    + left. exact Heq.
    + right. split; [exact (D Hne) | exact E].
  - intros Hsep V1 V2 Hne E. injection E as E.
    apply Hne, (Hsep _ _ V1 V2 E).
Qed.

Lemma content_key_depends_on_clock_witness :
  exists view1 view2,
    Renderer.Post Scenario.envDigest (Sample.propsWith [Sample.headingOnly])
    = Normal (Page view1) /\
    Renderer.Post (with_clock (fun n => 1700000001000 + Z.of_nat n)
                     Scenario.envDigest)
      (Sample.propsWith [Sample.headingOnly])
    = Normal (Page view2) /\
    option_map key (nth_error (contents view1) 0) = Some "1700000000006" /\
    option_map key (nth_error (contents view2) 0) = Some "1700000001006" /\
    option_map key (nth_error (contents view1) 0)
    <> option_map key (nth_error (contents view2) 0).
Proof.
  eexists. eexists.
  split; [vm_compute; reflexivity|].
  split; [vm_compute; reflexivity|].
  pose proof (content_key_depends_on_clock Scenario.envDigest
                (fun n => 1700000001000 + Z.of_nat n)
                (Sample.propsWith [Sample.headingOnly]) [Sample.headingOnly]
                0%nat Sample.headingOnly _ _ eq_refl eq_refl eq_refl eq_refl)
    as (K1 & K2 & _ & _ & K5).
  split; [exact K1|]. split; [exact K2|].
  apply K5.
  - intros t1 t2. apply digest_hash_separates_time_values.
  - unfold Scenario.validTimeValue. simpl. lia.
  - unfold Scenario.validTimeValue. simpl. lia.
  - simpl. lia.
Defined.

(* ================================================================== *)
(** * Further properties of the reading time *)
(* ================================================================== *)

Section MoreReadingTime.

Lemma sumZ_app (a b : list Z) : Spec.sumZ (a ++ b) = Spec.sumZ a + Spec.sumZ b.
Proof.
  unfold Spec.sumZ. induction a as [|x a IH]; simpl; [reflexivity|].
  rewrite IH. lia.
Qed.

Lemma spaceWords_app (a b : list ContentItem) :
  Spec.spaceWords (a ++ b) = Spec.spaceWords a + Spec.spaceWords b.
Proof.
  unfold Spec.spaceWords, Spec.wordsBy. rewrite map_app. apply sumZ_app.
Qed.

Lemma spaceWords_nonneg (items : list ContentItem) : 0 <= Spec.spaceWords items.
Proof.
  pose proof (spaceWords_lower items). unfold Js.length in *. lia.
Qed.

Lemma sumZ_perm (a b : list Z) : Permutation a b -> Spec.sumZ a = Spec.sumZ b.
Proof.
  unfold Spec.sumZ. induction 1; simpl; lia.
Qed.

Lemma ceilDiv_200_bounds (w : Z) :
  200 * (Spec.ceilDiv w 200 - 1) < w <= 200 * Spec.ceilDiv w 200.
Proof.
  unfold Spec.ceilDiv.
  pose proof (Z.div_mod (w + 200 - 1) 200 ltac:(lia)).
  pose proof (Z.mod_pos_bound (w + 200 - 1) 200 ltac:(lia)).
  lia.
Qed.

Lemma ceilDiv_200_least (w k : Z) : w <= 200 * k -> Spec.ceilDiv w 200 <= k.
Proof.
  intros H. pose proof (ceilDiv_200_bounds w). lia.
Qed.

Lemma split_on_length (c : ascii) (s : string) :
  List.length (split_on (Ascii.eqb c) s) = S (countChar c s).
Proof.
  induction s as [|x rest IH]; simpl; [reflexivity|].
  destruct (Ascii.eqb c x); simpl.
  - rewrite IH. reflexivity.
  - destruct (split_on (Ascii.eqb c) rest); simpl in *;
      [discriminate | exact IH].
Qed.

Lemma spaceWords_countedStrings (items : list ContentItem) :
  Spec.spaceWords items
  = Spec.sumZ (map Spec.spaceTokens (countedStrings items)).
Proof.
  unfold Spec.spaceWords, Spec.wordsBy, countedStrings.
  induction items as [|item rest IH]; simpl; [reflexivity|].
  rewrite map_app, sumZ_app, <- IH, map_map.
  unfold Spec.sumZ. simpl. lia.
Qed.

Lemma sumZ_spaceTokens (l : list string) :
  Spec.sumZ (map Spec.spaceTokens l)
  = Z.of_nat (List.length l) + Z.of_nat (list_sum (map (countChar " ") l)).
Proof.
  induction l as [|s l IH]; [reflexivity|].
  change (Spec.sumZ (map Spec.spaceTokens (s :: l)))
    with (Spec.spaceTokens s + Spec.sumZ (map Spec.spaceTokens l)).
  change (list_sum (map (countChar " ") (s :: l)))
    with (countChar " " s + list_sum (map (countChar " ") l))%nat.
  change (List.length (s :: l)) with (S (List.length l)).
  rewrite IH. unfold Spec.spaceTokens, Js.length, split.
  rewrite split_on_length. lia.
Qed.

End MoreReadingTime.

(** X1: the page shows a reading time of 0 minutes exactly when the
    content array is empty. *)
Theorem zero_minutes_iff_no_content_blocks :
  forall env props view items,
    Renderer.Post env props = Normal (Page view) ->
    content (data (post props)) = Some items ->
    (minutes_label view = 0 <-> items = []).
Proof.
  intros env props view items HP Hc.
  apply Post_Page_inv in HP.
  destruct HP as [_ (items' & b & d1 & d2 & Hc' & _ & _ & _ & ->)].
  rewrite Hc in Hc'. injection Hc' as <-.
  simpl minutes_label. rewrite totalMinutes_ceilDiv. split.
  - intros Z0. destruct items as [|i rest]; [reflexivity|].
    pose proof (spaceWords_lower (i :: rest)) as L.
    unfold Js.length in L. simpl List.length in L.
    pose proof (ceilDiv_200_pos (Spec.spaceWords (i :: rest)) ltac:(lia)).
    lia.
  - intros ->. reflexivity.
Qed.

Lemma zero_minutes_iff_no_content_blocks_witness :
  exists view,
    Renderer.Post Sample.env (Sample.propsWith []) = Normal (Page view) /\
    minutes_label view = 0.
Proof.
  eexists. split; [vm_compute; reflexivity|].
  apply (proj2 (zero_minutes_iff_no_content_blocks Sample.env
                  (Sample.propsWith []) _ [] eq_refl eq_refl)).
  reflexivity.
Defined.

(** X2: the minutes shown are the least number of 200-word minutes that
    cover the counted words: 200 * (minutes - 1) < words <= 200 *
    minutes, and no smaller number of minutes covers them. *)
Theorem minutes_least_cover_of_words :
  forall items,
    200 * (totalMinutes items - 1) < totalWords items <= 200 * totalMinutes items /\
    forall k, totalWords items <= 200 * k -> totalMinutes items <= k.
Proof.
  intros items. rewrite totalMinutes_ceilDiv, totalWords_spaceWords.
  split; [apply ceilDiv_200_bounds|]. intros k. apply ceilDiv_200_least.
Qed.

(** X3: the word count of a content followed by another is the sum of
    their word counts; adding blocks never lowers the reading time, and
    the reading time of the whole is at most the sum of the parts'. *)
Theorem reading_time_of_appended_content :
  forall a b,
    totalWords (a ++ b) = totalWords a + totalWords b /\
    totalMinutes a <= totalMinutes (a ++ b) /\
    totalMinutes (a ++ b) <= totalMinutes a + totalMinutes b.
Proof.
  intros a b. rewrite !totalMinutes_ceilDiv, !totalWords_spaceWords.
  rewrite spaceWords_app.
  pose proof (spaceWords_nonneg b) as Hb.
  pose proof (ceilDiv_200_bounds (Spec.spaceWords a)) as Ba.
  pose proof (ceilDiv_200_bounds (Spec.spaceWords b)) as Bb.
  pose proof (ceilDiv_200_bounds (Spec.spaceWords a + Spec.spaceWords b)) as Bab.
  split; [reflexivity|]. split.
  - apply ceilDiv_200_least. lia.
  - apply ceilDiv_200_least. lia.
Qed.

(** X4: the reading time does not depend on the order of the content
    blocks. *)
Theorem reading_time_ignores_block_order :
  forall a b,
    Permutation a b ->
    totalWords a = totalWords b /\ totalMinutes a = totalMinutes b.
Proof.
  intros a b P.
  assert (E : Spec.spaceWords a = Spec.spaceWords b).
  { unfold Spec.spaceWords, Spec.wordsBy.
    apply sumZ_perm, Permutation_map, P. }
  rewrite !totalMinutes_ceilDiv, !totalWords_spaceWords, E. split; reflexivity.
Qed.

Lemma reading_time_ignores_block_order_witness :
  totalMinutes (Sample.headingOnly :: Sample.content400)
  = totalMinutes (Sample.content400 ++ [Sample.headingOnly]).
Proof.
  apply (reading_time_ignores_block_order
           (Sample.headingOnly :: Sample.content400)
           (Sample.content400 ++ [Sample.headingOnly])).
  apply Permutation_cons_append.
Defined.

(** X5: the counted words are the number of strings looked at (one
    heading per block and one text per body fragment) plus the number of
    space characters in them; every space counts, also a leading, a
    trailing or a repeated one. *)
Theorem words_are_strings_plus_spaces :
  forall items,
    totalWords items
    = Z.of_nat (List.length (countedStrings items))
      + Z.of_nat (list_sum (map (countChar " ") (countedStrings items))).
Proof.
  intros items.
  rewrite totalWords_spaceWords, spaceWords_countedStrings.
  apply sumZ_spaceTokens.
Qed.

Lemma concat_split_on (c : ascii) (s : string) :
  String.concat (String c EmptyString) (split_on (Ascii.eqb c) s) = s.
Proof.
  induction s as [|x rest IH]; [reflexivity|].
  simpl split_on. destruct (Ascii.eqb_spec c x) as [->|Hne].
  - destruct (split_on (Ascii.eqb x) rest) as [|tok toks] eqn:E.
    + pose proof (split_on_nonempty (Ascii.eqb x) rest) as L.
      rewrite E in L. simpl in L. lia.
    + change (String.concat (String x EmptyString) (EmptyString :: tok :: toks))
        with (String x (String.concat (String x EmptyString) (tok :: toks))).
      rewrite IH. reflexivity.
  - destruct (split_on (Ascii.eqb c) rest) as [|tok toks] eqn:E.
    + pose proof (split_on_nonempty (Ascii.eqb c) rest) as L.
      rewrite E in L. simpl in L. lia.
    + rewrite <- IH. destruct toks as [|tok2 toks]; reflexivity.
Qed.

Lemma split_on_tokens_free (c : ascii) (s : string) :
  forall tok, In tok (split_on (Ascii.eqb c) s) -> countChar c tok = O.
Proof.
  induction s as [|x rest IH]; simpl; intros tok H.
  - destruct H as [<-|[]]. reflexivity.
  - destruct (Ascii.eqb c x) eqn:Ecx.
    + destruct H as [<-|H]; [reflexivity | exact (IH tok H)].
    + destruct (split_on (Ascii.eqb c) rest) as [|t ts].
      * destruct H as [<-|[]]. simpl. rewrite Ecx. reflexivity.
      * destruct H as [<-|H].
        -- simpl. rewrite Ecx. apply IH. left. reflexivity.
        -- apply IH. right. exact H.
Qed.

(** X6: [s.split(c)] loses nothing: joining the tokens with the
    separator gives the string back, no token contains the separator,
    and there is one token more than there are separators in the
    string. *)
Theorem split_join_round_trip :
  forall c s,
    String.concat (String c EmptyString) (split c s) = s /\
    (forall tok, In tok (split c s) -> countChar c tok = O) /\
    Js.length (split c s) = Z.of_nat (countChar c s) + 1.
Proof.
  intros c s. unfold split. split; [apply concat_split_on|].
  split; [apply split_on_tokens_free|].
  unfold Js.length. rewrite split_on_length. lia.
Qed.

(* ================================================================== *)
(** * Further properties of the renderer *)
(* ================================================================== *)

(** X7: the component returns the loading placeholder exactly when the
    router is in fallback; it then returns it for any props, without
    reading them and without throwing. *)
Theorem fallback_renders_placeholder :
  forall env,
    (isFallback env = true ->
     forall props, Renderer.Post env props = Normal Carregando) /\
    (forall props,
        Renderer.Post env props = Normal Carregando -> isFallback env = true).
Proof.
  intros env. split.
  - intros F props. unfold Renderer.Post. rewrite F. reflexivity.
  - intros props. unfold Renderer.Post.
    destruct (isFallback env); [reflexivity|].
    destruct (content (data (post props))); [|discriminate].
    destruct (banner (data (post props))); [|discriminate].
    destruct (format env _ "dd MMM yyyy" ptBR); simpl; [|discriminate].
    destruct (format env _ _ ptBR); simpl; discriminate.
Qed.

Lemma fallback_renders_placeholder_witness :
  Renderer.Post Scenario.envFallback Scenario.propsBare = Normal Carregando.
Proof.
  apply (proj1 (fallback_renders_placeholder Scenario.envFallback)).
  reflexivity.
Defined.

(** X8: a page is rendered only outside fallback and only for a post
    that has a content array and a banner and whose first publication
    date both formattings accept; the page then shows that banner's URL.
    A post without content array makes the render throw a TypeError
    whatever its banner and dates, this being the first thing read. *)
Theorem page_rendered_only_when :
  forall env props,
    (forall view,
        Renderer.Post env props = Normal (Page view) ->
        isFallback env = false /\
        (exists items, content (data (post props)) = Some items) /\
        (exists b, banner (data (post props)) = Some b /\
                   banner_src view = url b) /\
        (exists d1 d2,
            format env (new_Date env (first_publication_date (post props)))
              "dd MMM yyyy" ptBR = Normal d1 /\
            format env (new_Date env (first_publication_date (post props)))
              "'* editado em 'dd MMM yyyy', às 'HH:mm" ptBR = Normal d2)) /\
    (isFallback env = false ->
     content (data (post props)) = None ->
     Renderer.Post env props
     = Throw (TypeError "Cannot read property 'reduce' of undefined")).
Proof.
  intros env props. split.
  - intros view HP. apply Post_Page_inv in HP.
    destruct HP as [Hf (items & b & d1 & d2 & Hc & Hb & H1 & H2 & ->)].
    split; [exact Hf|]. split; [exists items; exact Hc|].
    split; [exists b; split; [exact Hb | reflexivity]|].
    exists d1, d2. split; assumption.
  - intros Hf Hc. unfold Renderer.Post. rewrite Hf, Hc. reflexivity.
Qed.

Lemma page_rendered_only_when_witness :
  Renderer.Post Sample.env Scenario.propsBare
  = Throw (TypeError "Cannot read property 'reduce' of undefined").
Proof.
  apply (proj2 (page_rendered_only_when Sample.env Scenario.propsBare));
    reflexivity.
Defined.

Lemma mapContent_views (env : Env) (items : list ContentItem) :
  forall n,
    map h2 (Renderer.mapContent env n items) = map heading items /\
    map innerHTML (Renderer.mapContent env n items)
    = map (fun item => asHtml env (body item)) items.
Proof.
  induction items as [|item rest IH]; intros n; simpl.
  - split; reflexivity.
  - destruct (IH (S n)) as [-> ->]. split; reflexivity.
Qed.

(** X9: a completed render shows one block per content item, in the
    order of the content array, each with the item's heading and the
    HTML the rich-text converter gives for the item's body. *)
Theorem rendered_blocks_follow_content :
  forall env props view items,
    Renderer.Post env props = Normal (Page view) ->
    content (data (post props)) = Some items ->
    List.length (contents view) = List.length items /\
    map h2 (contents view) = map heading items /\
    map innerHTML (contents view)
    = map (fun item => asHtml env (body item)) items.
Proof.
  intros env props view items HP Hc.
  apply Post_Page_inv in HP.
  destruct HP as [_ (items' & b & d1 & d2 & Hc' & _ & _ & _ & ->)].
  rewrite Hc in Hc'. injection Hc' as <-. simpl contents.
  destruct (mapContent_views env items 0) as [H1 H2].
  split; [|split; assumption].
  rewrite <- (length_map h2), H1, length_map. reflexivity.
Qed.

Lemma rendered_blocks_follow_content_witness :
  exists view,
    Renderer.Post Sample.env (Sample.propsWith Sample.content401)
    = Normal (Page view) /\
    List.length (contents view) = 2%nat.
Proof.
  eexists. split; [vm_compute; reflexivity|].
  apply (rendered_blocks_follow_content Sample.env
           (Sample.propsWith Sample.content401) _ Sample.content401
           eq_refl eq_refl).
Defined.

(** X10: within one render, two positions holding the same content item
    whose clock readings coincide receive the same list key, so keys
    are not unique among the blocks. *)
Theorem equal_blocks_same_instant_share_key :
  forall env props view items i j item,
    Renderer.Post env props = Normal (Page view) ->
    content (data (post props)) = Some items ->
    nth_error items i = Some item ->
    nth_error items j = Some item ->
    clock env i = clock env j ->
    exists k,
      option_map key (nth_error (contents view) i) = Some k /\
      option_map key (nth_error (contents view) j) = Some k.
Proof.
  intros env props view items i j item HP Hc Hi Hj Hclock.
  apply Post_Page_inv in HP.
  destruct HP as [_ (items' & b & d1 & d2 & Hc' & _ & _ & _ & ->)].
  rewrite Hc in Hc'. injection Hc' as <-. simpl contents.
  rewrite (mapContent_nth env items 0 i item Hi).
  rewrite (mapContent_nth env items 0 j item Hj).
  simpl. rewrite Hclock. eexists. split; reflexivity.
Qed.

Lemma equal_blocks_same_instant_share_key_witness :
  exists view k,
    Renderer.Post Scenario.envFrozen
      (Sample.propsWith [Sample.headingOnly; Sample.headingOnly])
    = Normal (Page view) /\
    option_map key (nth_error (contents view) 0) = Some k /\
    option_map key (nth_error (contents view) 1) = Some k.
Proof.
  eexists.
  destruct (equal_blocks_same_instant_share_key Scenario.envFrozen
              (Sample.propsWith [Sample.headingOnly; Sample.headingOnly])
              (pageOf Scenario.envFrozen
                 (Sample.propsWith [Sample.headingOnly; Sample.headingOnly])
                 [Sample.headingOnly; Sample.headingOnly]
                 {| url := "https://images.prismic.io/banner.png" |}
                 "dd MMM yyyy@1615836328000"
                 "'* editado em 'dd MMM yyyy', às 'HH:mm@1615836328000")
              [Sample.headingOnly; Sample.headingOnly]
              0%nat 1%nat Sample.headingOnly
              eq_refl eq_refl eq_refl eq_refl eq_refl) as [k [H0 H1]].
  exists k. split; [reflexivity|]. split; assumption.
Defined.

Lemma neighborInputs_link (cls cap : string) (q q' : option Post) :
  neighborInputs q = neighborInputs q' ->
  option_map (Renderer.linkTo cls cap) q = option_map (Renderer.linkTo cls cap) q' /\
  match q with Some _ => row | None => row_reverse end
  = match q' with Some _ => row | None => row_reverse end.
Proof.
  destruct q as [n|], q' as [n'|]; simpl; try discriminate.
  - intros H. injection H as Hu Ht. unfold Renderer.linkTo.
    rewrite Hu, Ht. split; reflexivity.
  - intros _. split; reflexivity.
Qed.

(** X11: the component reads of its props only the post's first
    publication date, title, banner, author and content and each
    neighbour's uid and title: props that agree on these render alike,
    whatever the subtitle, the post's uid, the last publication date,
    the preview flag or the neighbours' other fields. *)
Theorem render_reads_only_shown_fields :
  forall env props props',
    renderedInputs props = renderedInputs props' ->
    Renderer.Post env props = Renderer.Post env props'.
Proof.
  intros env props props' H. unfold renderedInputs in H.
  injection H as Hd Ht Hb Ha Hc Hp Hn.
  destruct (neighborInputs_link "postAnterior" "Post anterior" _ _ Hp) as [Lp Dp].
  destruct (neighborInputs_link "postPosterior" "Próximo post" _ _ Hn) as [Ln _].
  unfold Renderer.Post. rewrite Hd, Ht, Hb, Ha, Hc, Lp, Ln, Dp. reflexivity.
Qed.

Lemma render_reads_only_shown_fields_witness :
  Renderer.Post Sample.env Scenario.propsShown
  = Renderer.Post Sample.env Scenario.propsVariant.
Proof.
  apply (render_reads_only_shown_fields Sample.env
           Scenario.propsShown Scenario.propsVariant).
  reflexivity.
Defined.

(* ================================================================== *)
(** * Further properties of the prop builder *)
(* ================================================================== *)

Section MoreBuilder.

Variable prismic : Prismic.Client.
Variable ctx : Context.

Lemma getStaticProps_previous_rejected (doc : Prismic.Document) (e : Error) :
  lookup prismic ctx = Normal (Some doc) ->
  previousQuery prismic ctx doc = Throw e ->
  run (getStaticProps prismic ctx) = (Throw e, firstn 2 (requestsOf ctx doc)).
Proof.
  unfold lookup, previousQuery, run, getStaticProps, bind,
    await_getByUID, await_query.
  intros -> ->. reflexivity.
Qed.

Lemma getStaticProps_next_rejected (doc : Prismic.Document)
    (prevR : Prismic.ApiSearchResponse) (e : Error) :
  lookup prismic ctx = Normal (Some doc) ->
  previousQuery prismic ctx doc = Normal prevR ->
  nextQuery prismic ctx doc = Throw e ->
  run (getStaticProps prismic ctx) = (Throw e, requestsOf ctx doc).
Proof.
  unfold lookup, previousQuery, nextQuery, run, getStaticProps, bind,
    await_getByUID, await_query.
  intros -> -> ->. reflexivity.
Qed.

(** The requests of a prop building, whatever the client answers. *)
Lemma getStaticProps_requests :
  snd (run (getStaticProps prismic ctx))
  = match lookup prismic ctx with
    | Normal (Some doc) =>
        match previousQuery prismic ctx doc with
        | Normal _ => requestsOf ctx doc
        | Throw _ => firstn 2 (requestsOf ctx doc)
        end
    | _ => [Prismic.GetByUID "posts" (String_ (ctx_slug ctx)) (byUIDOptions ctx)]
    end.
Proof.
  destruct (lookup prismic ctx) as [[doc|]|e] eqn:Hl.
  - destruct (previousQuery prismic ctx doc) as [prevR|e] eqn:Hp.
    + destruct (nextQuery prismic ctx doc) as [nextR|e] eqn:Hn.
      * rewrite (getStaticProps_found prismic ctx doc prevR nextR Hl Hp Hn).
        reflexivity.
      * rewrite (getStaticProps_next_rejected doc prevR e Hl Hp Hn).
        reflexivity.
    + rewrite (getStaticProps_previous_rejected doc e Hl Hp). reflexivity.
  - rewrite (getStaticProps_not_found prismic ctx Hl). reflexivity.
  - rewrite (getStaticProps_lookup_rejected prismic ctx e Hl). reflexivity.
Qed.

End MoreBuilder.

(** X12: every request of a prop building carries the same content
    reference: the preview reference when the preview data supplies one,
    and null otherwise (no preview data, or preview data without a
    reference). *)
Theorem every_request_carries_the_preview_ref :
  forall prismic ctx call,
    In call (snd (run (getStaticProps prismic ctx))) ->
    Prismic.ref (callOptions call)
    = match ctx_previewData ctx with
      | Some pd => match pd_ref pd with Just r => Just r | _ => Null end
      | None => Null
      end.
Proof.
  intros prismic ctx call. rewrite getStaticProps_requests.
  assert (R : previewRef ctx
              = match ctx_previewData ctx with
                | Some pd => match pd_ref pd with Just r => Just r | _ => Null end
                | None => Null
                end).
  { unfold previewRef. destruct (ctx_previewData ctx) as [pd|]; [|reflexivity].
    destruct (pd_ref pd); reflexivity. }
  rewrite <- R.
  destruct (lookup prismic ctx) as [[doc|]|e].
  - destruct (previousQuery prismic ctx doc); simpl;
      intros H; repeat (destruct H as [<-|H]; [reflexivity|]); destruct H.
  - simpl. intros [<-|[]]. reflexivity.
  - simpl. intros [<-|[]]. reflexivity.
Qed.

Lemma every_request_carries_the_preview_ref_witness :
  Prismic.ref
    (callOptions
       (Prismic.Query postsPredicate
          (neighborOptions (Scenario.previewContext "terceiro" "Xr3f")
             Sample.terceiro "[document.first_publication_date]")))
  = Just "Xr3f".
Proof.
  apply (every_request_carries_the_preview_ref Sample.prismic
           (Scenario.previewContext "terceiro" "Xr3f")).
  vm_compute. right. right. left. reflexivity.
Defined.

(** X13: a props bundle is returned exactly when the document is found,
    both neighbour queries are answered and the document has a banner;
    it then comes with a revalidation interval of 300 seconds and with
    the context's preview flag, false when the context has none. *)
Theorem props_returned_exactly_when :
  forall prismic ctx,
    (forall p r,
        fst (run (getStaticProps prismic ctx)) = Normal (Props p r) ->
        r = 300 /\
        preview p = match ctx_preview ctx with Some v => v | None => false end /\
        exists doc b prevR nextR,
          lookup prismic ctx = Normal (Some doc) /\
          Prismic.banner (Prismic.data doc) = Some b /\
          previousQuery prismic ctx doc = Normal prevR /\
          nextQuery prismic ctx doc = Normal nextR) /\
    (forall doc b prevR nextR,
        lookup prismic ctx = Normal (Some doc) ->
        Prismic.banner (Prismic.data doc) = Some b ->
        previousQuery prismic ctx doc = Normal prevR ->
        nextQuery prismic ctx doc = Normal nextR ->
        exists p, fst (run (getStaticProps prismic ctx)) = Normal (Props p 300)).
Proof.
  intros prismic ctx. split.
  - intros p r H.
    destruct (lookup prismic ctx) as [[doc|]|e] eqn:Hl.
    + apply (getStaticProps_found_result prismic ctx doc) in H; [|exact Hl].
      destruct H as (b & prevR & nextR & Hb & Hp & Hn & E).
      injection E as -> ->.
      split; [reflexivity|]. split; [reflexivity|].
      exists doc, b, prevR, nextR. repeat split; assumption.
    + rewrite (getStaticProps_not_found prismic ctx Hl) in H. discriminate.
    + rewrite (getStaticProps_lookup_rejected prismic ctx e Hl) in H.
      discriminate.
  - intros doc b prevR nextR Hl Hb Hp Hn.
    rewrite (getStaticProps_found prismic ctx doc prevR nextR Hl Hp Hn), Hb.
    eexists. reflexivity.
Qed.

(** X14: a rejection of the content service becomes the result of the
    prop building and stops it: after a rejected lookup no query is
    sent, after a rejected descending query the ascending one is not
    sent, and a rejected ascending query is reported even when the
    document has no banner. *)
Theorem service_rejections_propagate :
  forall prismic ctx e,
    (lookup prismic ctx = Throw e ->
     run (getStaticProps prismic ctx)
     = (Throw e,
        [Prismic.GetByUID "posts" (String_ (ctx_slug ctx)) (byUIDOptions ctx)])) /\
    (forall doc,
        lookup prismic ctx = Normal (Some doc) ->
        previousQuery prismic ctx doc = Throw e ->
        run (getStaticProps prismic ctx)
        = (Throw e,
           [Prismic.GetByUID "posts" (String_ (ctx_slug ctx)) (byUIDOptions ctx);
            Prismic.Query postsPredicate
              (neighborOptions ctx doc "[document.first_publication_date desc]")])) /\
    (forall doc prevR,
        lookup prismic ctx = Normal (Some doc) ->
        previousQuery prismic ctx doc = Normal prevR ->
        nextQuery prismic ctx doc = Throw e ->
        fst (run (getStaticProps prismic ctx)) = Throw e /\
        List.length (snd (run (getStaticProps prismic ctx))) = 3%nat).
Proof.
  intros prismic ctx e. split; [|split].
  - apply getStaticProps_lookup_rejected.
  - intros doc Hl Hp.
    rewrite (getStaticProps_previous_rejected prismic ctx doc e Hl Hp).
    reflexivity.
  - intros doc prevR Hl Hp Hn.
    rewrite (getStaticProps_next_rejected prismic ctx doc prevR e Hl Hp Hn).
    split; reflexivity.
Qed.

Lemma service_rejections_propagate_witness :
  run (getStaticProps Scenario.offline (Sample.contextFor "primeiro"))
  = (Throw (ClientError "offline"),
     [Prismic.GetByUID "posts" "primeiro"
        (byUIDOptions (Sample.contextFor "primeiro"))]) /\
  fst (run (getStaticProps Scenario.rejectsAscending
              (Sample.contextFor "sem-banner")))
  = Throw (ClientError "timeout").
Proof.
  split.
  - apply (proj1 (service_rejections_propagate Scenario.offline
                    (Sample.contextFor "primeiro") (ClientError "offline"))).
    reflexivity.
  - refine (proj1 (proj2 (proj2 (service_rejections_propagate
                     Scenario.rejectsAscending (Sample.contextFor "sem-banner")
                     (ClientError "timeout")))
                     Sample.semBanner _ _ _ _)).
    + vm_compute; reflexivity.
    + vm_compute; reflexivity.
    + vm_compute; reflexivity.
Defined.

(** X15: a prop building sends at most three requests and none of them
    twice; the first is always the lookup by uid, and when the lookup
    finds no document it is the only one. *)
Theorem at_most_three_requests_none_repeated :
  forall prismic ctx,
    let requests := snd (run (getStaticProps prismic ctx)) in
    (1 <= List.length requests <= 3)%nat /\
    NoDup requests /\
    List.hd_error requests
    = Some (Prismic.GetByUID "posts" (String_ (ctx_slug ctx)) (byUIDOptions ctx)) /\
    (lookup prismic ctx = Normal None -> List.length requests = 1%nat).
Proof.
  intros prismic ctx requests. subst requests.
  rewrite getStaticProps_requests.
  assert (D3 : forall doc, NoDup (requestsOf ctx doc)).
  { intros doc. unfold requestsOf.
    repeat constructor; simpl; intuition discriminate. }
  assert (D2 : forall doc, NoDup (firstn 2 (requestsOf ctx doc))).
  { intros doc. simpl. repeat constructor; simpl; intuition discriminate. }
  assert (D1 : NoDup [Prismic.GetByUID "posts" (String_ (ctx_slug ctx))
                        (byUIDOptions ctx)]).
  { repeat constructor; simpl; intuition. }
  destruct (lookup prismic ctx) as [[doc|]|e].
  - destruct (previousQuery prismic ctx doc).
    + split; [simpl; lia|]. split; [apply D3|].
      split; [reflexivity | discriminate].
    + split; [simpl; lia|]. split; [apply D2|].
      split; [reflexivity | discriminate].
  - split; [simpl; lia|]. split; [apply D1|]. split; reflexivity.
  - split; [simpl; lia|]. split; [apply D1|].
    split; [reflexivity | discriminate].
Qed.

(* ================================================================== *)
(** * From the content service to the page *)
(* ================================================================== *)

(** X16: when both neighbour queries return a document, the page built
    from the bundle shows two links, to "/post/<uid>" of the first
    result of the descending query and of the ascending query, each
    labelled with that document's title, in a row that is not
    reversed. *)
Theorem both_neighbours_render_two_links :
  forall prismic ctx doc b prevR nextR fp rp fn rn env,
    lookup prismic ctx = Normal (Some doc) ->
    Prismic.banner (Prismic.data doc) = Some b ->
    previousQuery prismic ctx doc = Normal prevR ->
    nextQuery prismic ctx doc = Normal nextR ->
    Prismic.results prevR = fp :: rp ->
    Prismic.results nextR = fn :: rn ->
    exists p,
      fst (run (getStaticProps prismic ctx)) = Normal (Props p 300) /\
      forall view,
        Renderer.Post env p = Normal (Page view) ->
        flexDirection view = row /\
        postAnterior view
        = Some {| href := "/post/" ++ interpolate (Prismic.uid fp);
                  className := "postAnterior";
                  link_title := Prismic.title (Prismic.data fp);
                  caption := "Post anterior" |} /\
        postPosterior view
        = Some {| href := "/post/" ++ interpolate (Prismic.uid fn);
                  className := "postPosterior";
                  link_title := Prismic.title (Prismic.data fn);
                  caption := "Próximo post" |}.
Proof.
  intros prismic ctx doc b prevR nextR fp rp fn rn env Hl Hb Hp Hn Rp Rn.
  rewrite (getStaticProps_found prismic ctx doc prevR nextR Hl Hp Hn), Hb.
  eexists. split; [reflexivity|].
  intros view HP. apply Post_Page_inv in HP.
  destruct HP as [_ (items & bn & d1 & d2 & _ & _ & _ & _ & ->)].
  simpl. rewrite Rp, Rn. simpl. repeat split.
Qed.

Lemma both_neighbours_render_two_links_witness :
  exists p view,
    fst (run (getStaticProps Scenario.prismicWithNeighbors
                (Sample.contextFor "terceiro")))
    = Normal (Props p 300) /\
    Renderer.Post Sample.env p = Normal (Page view) /\
    option_map href (postAnterior view) = Some "/post/primeiro" /\
    option_map href (postPosterior view) = Some "/post/quarto".
Proof.
  destruct (both_neighbours_render_two_links
              Scenario.prismicWithNeighbors (Sample.contextFor "terceiro")
              Sample.terceiro Sample.image
              {| Prismic.page := 1; Prismic.total_results_size := 1;
                 Prismic.results := [Sample.primeiro] |}
              {| Prismic.page := 1; Prismic.total_results_size := 1;
                 Prismic.results := [Scenario.quarto] |}
              Sample.primeiro [] Scenario.quarto [] Sample.env
              eq_refl eq_refl eq_refl eq_refl eq_refl eq_refl)
    as (p & Hrun & Hview).
  exists p.
  vm_compute in Hrun. injection Hrun as <-.
  eexists. split; [vm_compute; reflexivity|].
  split; [vm_compute; reflexivity|].
  split; reflexivity.
Defined.

(** X17: whenever the page rendered from the bundle built for a found
    document completes, it shows the document's title (also in the head,
    followed by " | Ignews"), its author, its banner URL, the reading
    time of its content blocks and its first publication date in both
    date lines. *)
Theorem page_shows_the_found_document :
  forall prismic ctx env doc p r view,
    lookup prismic ctx = Normal (Some doc) ->
    fst (run (getStaticProps prismic ctx)) = Normal (Props p r) ->
    Renderer.Post env p = Normal (Page view) ->
    let date :=
      new_Date env match Prismic.first_publication_date doc with
                   | Some d => Just d
                   | None => Null
                   end in
    h1 view = Prismic.title (Prismic.data doc) /\
    head_title view = Prismic.title (Prismic.data doc) ++ " | Ignews" /\
    author_label view = Prismic.author (Prismic.data doc) /\
    (exists b, Prismic.banner (Prismic.data doc) = Some b /\
               banner_src view = Prismic.url b) /\
    (exists items, Prismic.content (Prismic.data doc) = Some items /\
                   minutes_label view = totalMinutes items) /\
    format env date "dd MMM yyyy" ptBR = Normal (date_label view) /\
    format env date "'* editado em 'dd MMM yyyy', às 'HH:mm" ptBR
    = Normal (infoUpdate view).
Proof.
  intros prismic ctx env doc p r view Hl Hrun HP date.
  apply (getStaticProps_found_result prismic ctx doc) in Hrun; [|exact Hl].
  destruct Hrun as (b & prevR & nextR & Hb & _ & _ & E).
  injection E as -> ->.
  apply Post_Page_inv in HP.
  destruct HP as [_ (items & bn & d1 & d2 & Hc & Hbn & H1 & H2 & ->)].
  simpl in Hc, Hbn. injection Hbn as <-.
  split; [reflexivity|]. split; [reflexivity|]. split; [reflexivity|].
  split; [exists b; split; [exact Hb | reflexivity]|].
  split; [exists items; split; [exact Hc | reflexivity]|].
  split; [exact H1 | exact H2].
Qed.

Lemma page_shows_the_found_document_witness :
  exists p view,
    fst (run (getStaticProps Scenario.prismicEdited (Sample.contextFor "editado")))
    = Normal (Props p 300) /\
    Renderer.Post Sample.env p = Normal (Page view) /\
    h1 view = "Post editado" /\
    author_label view = Some "Bia" /\
    banner_src view = "https://images.prismic.io/banner.png" /\
    minutes_label view = 1 /\
    date_label view = "dd MMM yyyy@1615836328000".
Proof.
  eexists. eexists.
  split; [vm_compute; reflexivity|].
  split; [vm_compute; reflexivity|].
  pose proof (page_shows_the_found_document
                Scenario.prismicEdited (Sample.contextFor "editado") Sample.env
                Scenario.editado _ 300 _ eq_refl eq_refl eq_refl)
    as (Hh & _ & Ha & _ & _ & _ & _).
  split; [exact Hh|]. split; [exact Ha|].
  repeat split.
Defined.

(** X18: a found document with a banner but without content blocks
    passes prop building, the absent content being copied as it is, and
    then makes the render throw a TypeError. *)
Theorem document_without_content_breaks_the_render :
  forall prismic ctx env doc b prevR nextR,
    lookup prismic ctx = Normal (Some doc) ->
    Prismic.banner (Prismic.data doc) = Some b ->
    previousQuery prismic ctx doc = Normal prevR ->
    nextQuery prismic ctx doc = Normal nextR ->
    Prismic.content (Prismic.data doc) = None ->
    isFallback env = false ->
    exists p,
      fst (run (getStaticProps prismic ctx)) = Normal (Props p 300) /\
      content (data (post p)) = None /\
      Renderer.Post env p
      = Throw (TypeError "Cannot read property 'reduce' of undefined").
Proof.
  intros prismic ctx env doc b prevR nextR Hl Hb Hp Hn Hc Hf.
  rewrite (getStaticProps_found prismic ctx doc prevR nextR Hl Hp Hn), Hb.
  eexists. split; [reflexivity|]. split; [exact Hc|].
  unfold Renderer.Post. rewrite Hf. simpl. rewrite Hc. reflexivity.
Qed.

Lemma document_without_content_breaks_the_render_witness :
  exists p,
    fst (run (getStaticProps Scenario.prismicDrafts
                (Sample.contextFor "sem-conteudo")))
    = Normal (Props p 300) /\
    content (data (post p)) = None /\
    Renderer.Post Sample.env p
    = Throw (TypeError "Cannot read property 'reduce' of undefined").
Proof.
  apply (document_without_content_breaks_the_render
           Scenario.prismicDrafts (Sample.contextFor "sem-conteudo") Sample.env
           Scenario.semConteudo Sample.image
           {| Prismic.page := 1; Prismic.total_results_size := 1;
              Prismic.results := [Scenario.rascunho] |}
           {| Prismic.page := 1; Prismic.total_results_size := 0;
              Prismic.results := [] |});
    reflexivity.
Defined.

(** X19: a found document that was never published (its first
    publication date is null) is shown with the date of the start of the
    epoch: both date lines format the time value 0, and the date parser
    is not consulted. *)
Theorem unpublished_document_is_dated_at_the_epoch :
  forall prismic ctx env doc p r view,
    lookup prismic ctx = Normal (Some doc) ->
    Prismic.first_publication_date doc = None ->
    fst (run (getStaticProps prismic ctx)) = Normal (Props p r) ->
    Renderer.Post env p = Normal (Page view) ->
    format env (Some 0) "dd MMM yyyy" ptBR = Normal (date_label view) /\
    format env (Some 0) "'* editado em 'dd MMM yyyy', às 'HH:mm" ptBR
    = Normal (infoUpdate view).
Proof.
  intros prismic ctx env doc p r view Hl Hd Hrun HP.
  apply (getStaticProps_found_result prismic ctx doc) in Hrun; [|exact Hl].
  destruct Hrun as (b & prevR & nextR & _ & _ & _ & E).
  injection E as -> ->.
  apply Post_Page_inv in HP.
  destruct HP as [_ (items & bn & d1 & d2 & _ & _ & H1 & H2 & ->)].
  unfold publicationDate in H1, H2. simpl in H1, H2.
  rewrite Hd in H1, H2. simpl in H1, H2. split; assumption.
Qed.

Lemma unpublished_document_is_dated_at_the_epoch_witness :
  exists p view,
    fst (run (getStaticProps Scenario.prismicDrafts
                (Sample.contextFor "rascunho")))
    = Normal (Props p 300) /\
    Renderer.Post Sample.env p = Normal (Page view) /\
    date_label view = "dd MMM yyyy@0".
Proof.
  eexists. eexists.
  split; [vm_compute; reflexivity|].
  split; [vm_compute; reflexivity|].
  pose proof (unpublished_document_is_dated_at_the_epoch
                Scenario.prismicDrafts (Sample.contextFor "rascunho") Sample.env
                Scenario.rascunho _ 300 _ eq_refl eq_refl eq_refl eq_refl) as H.
  destruct H as [H _].
  exact (eq_sym (f_equal (fun c => match c with
                                   | Normal x => x
                                   | Throw _ => EmptyString
                                   end) H)).
Defined.

(* ================================================================== *)
(** * Further properties of the path enumerator *)
(* ================================================================== *)

(** X20: the enumerator asks for one page only: when the service holds
    more than 100 documents and answers with its first page, exactly 100
    route parameters are returned, those of the first 100 documents; the
    remaining documents get no static path (they are left to the
    fallback). *)
Theorem getStaticPaths_stops_at_the_first_page :
  forall prismic docs response,
    Prismic.query prismic postsPredicate pathsOptions = Normal response ->
    Prismic.results response = firstn 100 docs ->
    (100 < List.length docs)%nat ->
    exists result,
      run (getStaticPaths prismic)
      = (Normal result, [Prismic.Query postsPredicate pathsOptions]) /\
      List.length (paths result) = 100%nat /\
      map (fun path => slug (params path)) (paths result)
      = map Prismic.uid (firstn 100 docs) /\
      fallback result = true.
Proof.
  intros prismic docs response Hq Hr Hk.
  unfold run, getStaticPaths, bind, await_query, ret. rewrite Hq. simpl.
  eexists. split; [reflexivity|]. simpl.
  rewrite Hr, length_map, map_map, length_firstn.
  split; [lia|]. split; reflexivity.
Qed.

Lemma getStaticPaths_stops_at_the_first_page_witness :
  exists result,
    run (getStaticPaths (Sample.memoryClient (Scenario.manyDocuments 120)))
    = (Normal result, [Prismic.Query postsPredicate pathsOptions]) /\
    List.length (paths result) = 100%nat.
Proof.
  destruct (getStaticPaths_stops_at_the_first_page
              (Sample.memoryClient (Scenario.manyDocuments 120))
              (Scenario.manyDocuments 120)
              {| Prismic.page := 1; Prismic.total_results_size := 120;
                 Prismic.results := firstn 100 (Scenario.manyDocuments 120) |})
    as (result & Hrun & Hlen & _).
  - vm_compute; reflexivity.
  - reflexivity.
  - vm_compute. lia.
  - exists result. split; assumption.
Defined.

(** X21: the enumerator sends exactly one request whatever the service
    answers; a rejection of the service becomes its result, and a
    service without documents yields an empty list of paths with
    fallback still enabled. *)
Theorem getStaticPaths_single_request :
  forall prismic,
    List.length (snd (run (getStaticPaths prismic))) = 1%nat /\
    (forall e,
        Prismic.query prismic postsPredicate pathsOptions = Throw e ->
        fst (run (getStaticPaths prismic)) = Throw e) /\
    (forall response,
        Prismic.query prismic postsPredicate pathsOptions = Normal response ->
        Prismic.results response = [] ->
        fst (run (getStaticPaths prismic))
        = Normal {| paths := []; fallback := true |}).
Proof.
  intros prismic.
  unfold run, getStaticPaths, bind, await_query, ret.
  destruct (Prismic.query prismic postsPredicate pathsOptions) as [r|e0]; simpl.
  - split; [reflexivity|]. split; [discriminate|].
    intros response H Hr. injection H as <-. rewrite Hr. reflexivity.
  - split; [reflexivity|]. split; [|discriminate].
    intros e H. injection H as <-. reflexivity.
Qed.

Lemma props_returned_exactly_when_witness :
  exists p,
    fst (run (getStaticProps Sample.prismic (Sample.contextFor "terceiro")))
    = Normal (Props p 300).
Proof.
  apply (proj2 (props_returned_exactly_when Sample.prismic
                  (Sample.contextFor "terceiro"))
           Sample.terceiro Sample.image
           {| Prismic.page := 1; Prismic.total_results_size := 2;
              Prismic.results := [Sample.semBanner] |}
           {| Prismic.page := 1; Prismic.total_results_size := 0;
              Prismic.results := [] |});
    reflexivity.
Defined.
